(** * weather_cli.py: a shallow embedding and its verified properties

    The program is one Python script: a lookup against the OpenWeather API
    ([get_weather]), four prompt-driven flows over an in-memory list of at
    most three favourite cities, and a menu loop.

    Python values are dynamically typed, so the data decoded from the API
    response is embedded as a tree of [pyval]; every subscript, method call
    and truth test follows what the interpreter does on each shape of value,
    including the exception it raises.  Effects (environment, network,
    console, the favourites list object) are threaded through a state and
    exception monad [M]. *)

From Stdlib Require Import ZArith List String Ascii Bool Lia PrimFloat.
Import ListNotations.

Open Scope string_scope.
Open Scope Z_scope.

Set Warnings "-register-all".

(** ** Python values *)

(** What [resp.json()] can return, which is also what ends up in the
    simplified record and in the favourites list.  A [dict] keeps its items
    in order; the keys of a decoded JSON object are always [str]. *)
Inductive pyval : Type :=
| VNone
| VBool (b : bool)
| VInt (z : Z)
| VFloat (f : float)
| VStr (s : string)
| VList (l : list pyval)
| VDict (d : list (string * pyval)).

Fixpoint dict_lookup (k : string) (d : list (string * pyval)) : option pyval :=
  match d with
  | [] => None
  | (k', v) :: rest => if (k' =? k)%string then Some v else dict_lookup k rest
  end.

(** [bool(v)]: the truth value Python gives to [v] in [if v] / [v or x]. *)
Definition truthy (v : pyval) : bool :=
  match v with
  | VNone => false
  | VBool b => b
  | VInt z => negb (z =? 0)
  | VFloat f => negb (PrimFloat.eqb f 0%float)
  | VStr s => negb (s =? "")%string
  | VList l => match l with [] => false | _ => true end
  | VDict d => match d with [] => false | _ => true end
  end.

(** Tests that a value is the given [str]. *)
Definition is_str (s : string) (v : pyval) : bool :=
  match v with
  | VStr s' => (s' =? s)%string
  | _ => false
  end.

(** ** Exceptions *)

(** The exceptions of the interpreter and of [requests] that the script can
    meet. *)
Inductive py_exn : Type :=
| KeyError (key : pyval)
| TypeError
| AttributeError
| IndexError
| ValueError
| EOFError
| RequestException (cause : string)
| JSONDecodeError.

(** [WeatherError] carries a message; there is one constructor per [raise]
    site of the script, holding the values its f-string interpolates. *)
Inductive weather_error : Type :=
| ApiKeyNotFound
    (* "API key not found. Please set the ... environment variable." *)
| NetworkError (cause : string)
    (* "Network error while contacting OpenWeather: {e}" *)
| CityNotFound (city : pyval)
    (* "City '{city}' not found." *)
| ApiStatus (status : Z) (body : string)
    (* "OpenWeather API returned status {resp.status_code}: {resp.text}" *)
| UnexpectedFormat (cause : py_exn).
    (* "Unexpected API response format: {e}" *)

Inductive exn : Type :=
| Builtin (e : py_exn)
| WeatherError (e : weather_error).

(** ** Results of evaluating an expression *)

Inductive result (A : Type) : Type :=
| Ret (a : A)
| Raise (e : exn).
Arguments Ret {A} a.
Arguments Raise {A} e.

Definition rbind {A B} (r : result A) (k : A -> result B) : result B :=
  match r with
  | Ret a => k a
  | Raise e => Raise e
  end.

Notation "'let*' x ':=' r 'in' k" := (rbind r (fun x => k))
  (at level 10, x name, r at level 100, k at level 200).

(** Indexing a sequence: Python counts from the end when the index is
    negative, and the index is out of range outside [-len, len). *)
Definition seq_index {A} (l : list A) (i : Z) : option A :=
  let n := Z.of_nat (List.length l) in
  if (0 <=? i) && (i <? n) then nth_error l (Z.to_nat i)
  else if (- n <=? i) && (i <? 0) then nth_error l (Z.to_nat (i + n))
  else None.

Definition chars (s : string) : list string :=
  map (fun c => String c EmptyString) (list_ascii_of_string s).

(** [v[k]] *)
Definition getitem (v k : pyval) : result pyval :=
  match v with
  | VDict d =>
      match k with
      | VStr key =>
          match dict_lookup key d with
          | Some x => Ret x
          | None => Raise (Builtin (KeyError k))
          end
      | VList _ | VDict _ => Raise (Builtin TypeError)      (* unhashable *)
      | _ => Raise (Builtin (KeyError k))
      end
  | VList l =>
      match k with
      | VInt i =>
          match seq_index l i with
          | Some x => Ret x
          | None => Raise (Builtin IndexError)
          end
      | _ => Raise (Builtin TypeError)
      end
  | VStr s =>
      match k with
      | VInt i =>
          match seq_index (chars s) i with
          | Some c => Ret (VStr c)
          | None => Raise (Builtin IndexError)
          end
      | _ => Raise (Builtin TypeError)
      end
  | VNone | VBool _ | VInt _ | VFloat _ => Raise (Builtin TypeError)
  end.

(** [v.get(key, default)]: only a [dict] has the method. *)
Definition get (v : pyval) (key : string) (default : pyval) : result pyval :=
  match v with
  | VDict d =>
      match dict_lookup key d with
      | Some x => Ret x
      | None => Ret default
      end
  | _ => Raise (Builtin AttributeError)
  end.

(** ** The world the script runs in *)

Record request : Type := mkRequest {
  url : string;
  q : pyval;
  appid : string;
  units : string;
  timeout : Z
}.

Record response : Type := mkResponse {
  status_code : Z;
  text : string;
  json : option pyval     (* [None]: the body does not decode as JSON *)
}.

(** The simplified dict returned by [get_weather]. *)
Record weather_info : Type := mkInfo {
  info_city : pyval;
  info_country : pyval;
  info_temp : pyval;
  info_feels_like : pyval;
  info_description : pyval;
  info_humidity : pyval;
  info_wind_speed : pyval
}.

(** What [print] writes.  Literal lines are kept as text; a formatted line
    is kept as its template with the values it interpolates. *)
Inductive output : Type :=
| Text (s : string)
| ErrorLine (e : weather_error)            (* "Error: {e}\n" *)
| FatalLine (e : weather_error)            (* "Fatal error: {e}" *)
| WeatherFor (city : pyval) (suffix : option pyval)
                                           (* "\nWeather for {location}:" *)
| Rule (city : pyval) (suffix : option pyval)
                                           (* "-" * (len(location) + 12) *)
| DescriptionLine (s : string)             (* "  Description : {s.title()}" *)
| TemperatureLine (v : pyval)
| FeelsLikeLine (v : pyval)
| HumidityLine (v : pyval)
| WindSpeedLine (v : pyval)
| AlreadyFavourite (city : string)         (* "'{city}' is already in ..." *)
| Added (name : pyval)                     (* "Added '{name}' to favourites.\n" *)
| Removed (name : pyval)                   (* "Removed '{name}' from ...\n" *)
| EntryHeader (idx : Z) (city : pyval)     (* "\n[{idx}] {city}" *)
| EntryError (city : pyval) (e : weather_error)
                          (* "  Error fetching weather for '{city}': {e}\n" *)
| NumberedItem (idx : Z) (city : pyval)    (* "  {idx}. {city}" *)
| Prompt (s : string).                     (* the prompt of [input] *)

Inductive net_result : Type :=
| Fails (cause : string)        (* requests.get raises RequestException *)
| Answers (r : response).

Record World : Type := mkWorld {
  environ : list (string * string);
  (* the remote side: what the n-th call of the run gets for a request *)
  network : nat -> request -> net_result;
  sent : list request;            (* requests issued so far, oldest first *)
  stdin : list string;            (* lines still to be typed *)
  stdout : list output;           (* lines printed so far, oldest first *)
  (* the one list object created in [main] and handed to every flow *)
  favourites : list pyval
}.

(** Updates of one component of the world. *)
Definition printed (os : list output) (w : World) : World :=
  mkWorld (environ w) (network w) (sent w) (stdin w) (stdout w ++ os)
          (favourites w).

Definition record_sent (r : request) (w : World) : World :=
  mkWorld (environ w) (network w) (sent w ++ [r]) (stdin w) (stdout w)
          (favourites w).

Definition with_stdin (lines : list string) (w : World) : World :=
  mkWorld (environ w) (network w) (sent w) lines (stdout w) (favourites w).

Definition with_favourites (l : list pyval) (w : World) : World :=
  mkWorld (environ w) (network w) (sent w) (stdin w) (stdout w) l.

(** ** The state and exception monad *)

Definition M (A : Type) : Type := World -> result A * World.

Definition ret {A} (a : A) : M A := fun w => (Ret a, w).
Definition raise {A} (e : exn) : M A := fun w => (Raise e, w).

Definition bind {A B} (m : M A) (k : A -> M B) : M B :=
  fun w =>
    match m w with
    | (Ret a, w') => k a w'
    | (Raise e, w') => (Raise e, w')
    end.

Notation "x <- m ;; k" := (bind m (fun x => k))
  (at level 100, m at next level, right associativity).
Notation "m ;;; k" := (bind m (fun _ => k))
  (at level 100, right associativity).

Definition lift {A} (r : result A) : M A := fun w => (r, w).

(** [try: m  except ...: h]: the handler says which exceptions it takes. *)
Definition try_except {A} (m : M A) (h : exn -> option (M A)) : M A :=
  fun w =>
    match m w with
    | (Ret a, w') => (Ret a, w')
    | (Raise e, w') =>
        match h e with
        | Some k => k w'
        | None => (Raise e, w')
        end
    end.

Definition print (o : output) : M unit := fun w => (Ret tt, printed [o] w).

(** [os.getenv(name)] *)
Definition getenv (name : string) (env : list (string * string))
  : option string :=
  match find (fun kv => (fst kv =? name)%string) env with
  | Some kv => Some (snd kv)
  | None => None
  end.

Definition os_getenv (name : string) : M (option string) :=
  fun w => (Ret (getenv name (environ w)), w).

Definition requests_get (r : request) : M response :=
  fun w =>
    match network w (List.length (sent w)) r with
    | Fails cause => (Raise (Builtin (RequestException cause)), record_sent r w)
    | Answers resp => (Ret resp, record_sent r w)
    end.

(** [resp.json()] *)
Definition resp_json (resp : response) : M pyval :=
  match json resp with
  | Some data => ret data
  | None => raise (Builtin JSONDecodeError)
  end.

(** ** Weather lookup *)

Definition API_BASE_URL : string :=
  "https://api.openweathermap.org/data/2.5/weather".
Definition API_KEY_ENV_VAR : string := "OPENWEATHER_API_KEY".

Definition get_api_key : M string :=
  api_key <- os_getenv API_KEY_ENV_VAR ;;
  match api_key with
  | Some k => if (k =? "")%string
              then raise (WeatherError ApiKeyNotFound)
              else ret k
  | None => raise (WeatherError ApiKeyNotFound)
  end.

(** The body of the second [try] of [get_weather]: the statements that
    read the decoded response and build the simplified dict, in the order
    Python evaluates them. *)
Definition build_simplified (city data : pyval) : result weather_info :=
  let* main := getitem data (VStr "main") in
  let* weather_list := get data "weather" (VList []) in
  let* weather_desc :=
    (if truthy weather_list
     then let* first := getitem weather_list (VInt 0) in
          getitem first (VStr "description")
     else Ret (VStr "N/A")) in
  let* wind := get data "wind" (VDict []) in
  let* sys_info := get data "sys" (VDict []) in
  let* v_city := get data "name" city in
  let* v_country := get sys_info "country" (VStr "") in
  let* v_temp := getitem main (VStr "temp") in
  let* v_feels_like := getitem main (VStr "feels_like") in
  let* v_humidity := getitem main (VStr "humidity") in
  let* v_wind_speed := get wind "speed" (VFloat 0%float) in
  Ret (mkInfo v_city v_country v_temp v_feels_like weather_desc
              v_humidity v_wind_speed).

Definition get_weather (city : pyval) : M weather_info :=
  api_key <- get_api_key ;;
  let params := mkRequest API_BASE_URL city api_key "metric" 5 in
  resp <- try_except (requests_get params)
            (fun e => match e with
                      | Builtin (RequestException cause) =>
                          Some (raise (WeatherError (NetworkError cause)))
                      | _ => None
                      end) ;;
  if status_code resp =? 404 then raise (WeatherError (CityNotFound city))
  else if negb (status_code resp =? 200)
  then raise (WeatherError (ApiStatus (status_code resp) (text resp)))
  else
    data <- resp_json resp ;;
    try_except (lift (build_simplified city data))
      (fun e => match e with
                | Builtin (KeyError k) =>
                    Some (raise (WeatherError (UnexpectedFormat (KeyError k))))
                | Builtin TypeError =>
                    Some (raise (WeatherError (UnexpectedFormat TypeError)))
                | _ => None
                end).

(** ** Console input *)

Definition nl : string := String (ascii_of_nat 10) EmptyString.

(** [input(prompt)]: writes the prompt, reads one line; end of input raises
    [EOFError]. *)
Definition input (prompt : string) : M string :=
  print (Prompt prompt) ;;;
  fun w =>
    match stdin w with
    | [] => (Raise (Builtin EOFError), w)
    | line :: rest => (Ret line, with_stdin rest w)
    end.

(** Whitespace of [str.strip()] among the ASCII characters: tab to carriage
    return, the four separators 28-31 and the space.  [strip] is Python's
    on text made of ASCII characters ([is_ascii] below); the Unicode spaces
    that [str.strip()] also removes are not modelled, so a property that
    depends on what [strip] returns is stated for ASCII lines. *)
Definition is_space (c : ascii) : bool :=
  let n := nat_of_ascii c in
  (((9 <=? n) && (n <=? 13)) || ((28 <=? n) && (n <=? 31)) || (n =? 32))%nat.

Fixpoint lstrip_chars (l : list ascii) : list ascii :=
  match l with
  | [] => []
  | c :: rest => if is_space c then lstrip_chars rest else l
  end.

Definition strip (s : string) : string :=
  string_of_list_ascii
    (rev (lstrip_chars (rev (lstrip_chars (list_ascii_of_string s))))).

Definition digit_of (c : ascii) : option Z :=
  let n := nat_of_ascii c in
  if ((48 <=? n) && (n <=? 57))%nat then Some (Z.of_nat (n - 48)) else None.

(** Decimal digits, where a single underscore may sit between two digits. *)
Fixpoint parse_digits (acc : Z) (after_digit : bool) (l : list ascii)
  : option Z :=
  match l with
  | [] => if after_digit then Some acc else None
  | c :: rest =>
      match digit_of c with
      | Some d => parse_digits (10 * acc + d) true rest
      | None =>
          if (c =? "_")%char && after_digit
          then parse_digits acc false rest
          else None
      end
  end.

Definition parse_unsigned (l : list ascii) : result Z :=
  match parse_digits 0 false l with
  | Some z => Ret z
  | None => Raise (Builtin ValueError)
  end.

(** [int(s)] on a [str], base ten: surrounding whitespace, an optional
    sign, digits.  Anything else is a [ValueError].  This is Python's [int]
    on ASCII text of at most 4300 characters ([short_ascii] below): the
    Unicode decimal digits it also reads and the limit CPython puts on the
    number of digits are not modelled, so a property that depends on what
    [int] returns is stated for such lines. *)
Definition int (s : string) : result Z :=
  match list_ascii_of_string (strip s) with
  | "+"%char :: rest => parse_unsigned rest
  | "-"%char :: rest => let* z := parse_unsigned rest in Ret (- z)
  | l => parse_unsigned l
  end.

(** ** The favourites list object *)

Definition get_favourites : M (list pyval) := fun w => (Ret (favourites w), w).

Definition set_favourites (l : list pyval) : M unit :=
  fun w => (Ret tt, with_favourites l w).

Definition len {A} (l : list A) : Z := Z.of_nat (List.length l).

(** [favourites.append(x)] *)
Definition favourites_append (x : pyval) : M unit :=
  l <- get_favourites ;;
  set_favourites (l ++ [x]).

Definition remove_nth {A} (n : nat) (l : list A) : list A :=
  firstn n l ++ skipn (S n) l.

(** [favourites.pop(i)] *)
Definition favourites_pop (i : Z) : M pyval :=
  l <- get_favourites ;;
  match seq_index l i with
  | Some x =>
      set_favourites
        (remove_nth (Z.to_nat (if i <? 0 then i + len l else i)) l) ;;;
      ret x
  | None => raise (Builtin IndexError)
  end.

(** [city in favourites] for a [str]: an element is equal to it only when
    it is the same [str]. *)
Definition str_in (city : string) (l : list pyval) : bool :=
  existsb (fun v => match v with
                    | VStr s => (s =? city)%string
                    | _ => false
                    end) l.

(** ** Rendering *)

(** [location += ...] builds a new [str] when the city is a [str].  When the
    city is a [list], Python extends that list object in place, and in the
    list flow the object can be the favourites entry itself; values here
    carry no identity, so that effect is not modelled, and a property that
    depends on it is stated for cities and entries that are not lists. *)
Definition print_weather (info : weather_info) : M unit :=
  let location := info_city info in
  suffix <-
    (if truthy (info_country info)
     then (* location += f", {info['country']}" *)
          match location with
          | VStr _ | VList _ => ret (Some (info_country info))
          | _ => raise (Builtin TypeError)
          end
     else ret None) ;;
  print (WeatherFor location suffix) ;;;
  (match location with                       (* len(location) *)
   | VStr _ | VList _ | VDict _ => print (Rule location suffix)
   | _ => raise (Builtin TypeError)
   end) ;;;
  (match info_description info with          (* .title() *)
   | VStr s => print (DescriptionLine s)
   | _ => raise (Builtin AttributeError)
   end) ;;;
  print (TemperatureLine (info_temp info)) ;;;
  print (FeelsLikeLine (info_feels_like info)) ;;;
  print (HumidityLine (info_humidity info)) ;;;
  print (WindSpeedLine (info_wind_speed info)) ;;;
  print (Text "").

Definition prompt_city_name : M (option string) :=
  line <- input "Enter city name (or press Enter to cancel): " ;;
  let city := strip line in
  ret (if (city =? "")%string then None else Some city).

(** [try: info = get_weather(city)  except WeatherError as e: h(e); return]:
    [None] stands for the early return. *)
Definition lookup_or (city : pyval) (h : weather_error -> M unit)
  : M (option weather_info) :=
  try_except (info <- get_weather city ;; ret (Some info))
    (fun e => match e with
              | WeatherError we => Some (h we ;;; ret None)
              | Builtin _ => None
              end).

(** ** The four flows *)

Definition search_city_flow : M unit :=
  city <- prompt_city_name ;;
  match city with
  | None => print (Text ("Search cancelled." ++ nl))
  | Some city =>
      r <- lookup_or (VStr city) (fun e => print (ErrorLine e)) ;;
      match r with
      | None => ret tt
      | Some info => print_weather info
      end
  end.

Definition add_favourite_flow : M unit :=
  favs <- get_favourites ;;
  if 3 <=? len favs
  then print (Text ("You already have 3 favourite cities. "
                    ++ "Use 'Update Favourite Cities' to change them." ++ nl))
  else
    city <- prompt_city_name ;;
    match city with
    | None => print (Text ("Add favourite cancelled." ++ nl))
    | Some city =>
        favs <- get_favourites ;;
        if str_in city favs then print (AlreadyFavourite city)
        else
          r <- lookup_or (VStr city) (fun e => print (ErrorLine e)) ;;
          match r with
          | None => ret tt
          | Some info =>
              favourites_append (info_city info) ;;;
              print (Added (info_city info))
          end
    end.

(** The [for] loop of the list flow; its body never changes the list. *)
Fixpoint list_loop (idx : Z) (l : list pyval) : M unit :=
  match l with
  | [] => ret tt
  | city :: rest =>
      print (EntryHeader idx city) ;;;
      try_except (info <- get_weather city ;; print_weather info)
        (fun e => match e with
                  | WeatherError we => Some (print (EntryError city we))
                  | Builtin _ => None
                  end) ;;;
      list_loop (idx + 1) rest
  end.

Definition list_favourites_flow : M unit :=
  favs <- get_favourites ;;
  if negb (truthy (VList favs))
  then print (Text ("You have no favourite cities yet." ++ nl))
  else
    print (Text (nl ++ "Favourite cities and their current weather:")) ;;;
    print (Text "-------------------------------------------") ;;;
    list_loop 1 favs.

Fixpoint print_numbered (idx : Z) (l : list pyval) : M unit :=
  match l with
  | [] => ret tt
  | city :: rest => print (NumberedItem idx city) ;;;
                    print_numbered (idx + 1) rest
  end.

(** The second half of the update flow (from the comment
    "Now ask for a replacement city" to the end of the function). *)
Definition update_replacement : M unit :=
  city <- prompt_city_name ;;
  match city with
  | None => print (Text ("Update cancelled. No new city added." ++ nl))
  | Some city =>
      favs <- get_favourites ;;
      if str_in city favs then print (AlreadyFavourite city)
      else
        r <- lookup_or (VStr city) (fun e => print (ErrorLine e)) ;;
        match r with
        | None => ret tt
        | Some info =>
            favourites_append (info_city info) ;;;
            print (Added (info_city info))
        end
  end.

Definition update_favourites_flow : M unit :=
  favs <- get_favourites ;;
  if negb (truthy (VList favs))
  then print (Text ("You have no favourite cities to update. "
                    ++ "Use 'Add a City to Favourites' first." ++ nl))
  else
    print (Text (nl ++ "Current favourites:")) ;;;
    print_numbered 1 favs ;;;
    choice <-
      try_except
        (choice_str <- input "Enter the number of the city to remove: " ;;
         choice <- lift (int (strip choice_str)) ;;
         ret (Some choice))
        (fun e => match e with
                  | Builtin ValueError =>
                      Some (print (Text ("Invalid input. Please enter a number."
                                         ++ nl)) ;;;
                            ret None)
                  | _ => None
                  end) ;;
    match choice with
    | None => ret tt
    | Some choice =>
        favs <- get_favourites ;;
        if negb ((1 <=? choice) && (choice <=? len favs))
        then print (Text ("Choice out of range." ++ nl))
        else
          removed_city <- favourites_pop (choice - 1) ;;
          print (Removed removed_city) ;;;
          update_replacement
    end.

(** ** Menu loop and entry point *)

Definition print_menu : M unit :=
  print (Text "Weather CLI") ;;;
  print (Text "-----------") ;;;
  print (Text "1. Search weather for a city") ;;;
  print (Text "2. Add a city to favourites") ;;;
  print (Text "3. List favourite cities and their weather") ;;;
  print (Text "4. Update favourite cities (remove & add)") ;;;
  print (Text "5. Exit").

(** The [if]/[elif] chain of the loop body: [true] when the loop goes round
    again, [false] on [break]. *)
Definition dispatch (choice : string) : M bool :=
  if (choice =? "1")%string then search_city_flow ;;; ret true
  else if (choice =? "2")%string then add_favourite_flow ;;; ret true
  else if (choice =? "3")%string then list_favourites_flow ;;; ret true
  else if (choice =? "4")%string then update_favourites_flow ;;; ret true
  else if (choice =? "5")%string then print (Text "Goodbye!") ;;; ret false
  else print (Text ("Invalid choice. Please select 1-5." ++ nl)) ;;; ret true.

(** One pass through the body of [while True]. *)
Definition menu_iteration : M bool :=
  print_menu ;;;
  line <- input "Choose an option (1-5): " ;;
  let choice := strip line in
  print (Text "") ;;;
  dispatch choice.

(** The loop itself.  Every pass reads at least one line, so the number of
    lines still to be typed bounds the number of passes; [None] is a run that
    would need more passes than it was given (see [main_terminates]). *)
Fixpoint main_loop (fuel : nat) (w : World) : option (result unit * World) :=
  match fuel with
  | O => None
  | S fuel' =>
      match menu_iteration w with
      | (Ret true, w') => main_loop fuel' w'
      | (Ret false, w') => Some (Ret tt, w')
      | (Raise e, w') => Some (Raise e, w')
      end
  end.

Definition main (w : World) : option (result unit * World) :=
  match (set_favourites [] ;;;
         print (Text "Welcome to the OpenWeather CLI app!") ;;;
         print (Text ("Make sure your API key is set in the "
                      ++ API_KEY_ENV_VAR ++ " environment variable." ++ nl))) w
  with
  | (Ret _, w') => main_loop (S (List.length (stdin w'))) w'
  | (Raise e, w') => Some (Raise e, w')
  end.

(** The [if __name__ == "__main__"] block: the exit status of the process
    and the world it leaves.  A [WeatherError] that leaves [main] is printed
    and gives status 1; any other exception ends the interpreter with a
    traceback and status 1; a normal return gives status 0. *)
Definition script (w : World) : option (Z * World) :=
  match main w with
  | None => None
  | Some (Ret _, w') => Some (0, w')
  | Some (Raise (WeatherError e), w') => Some (1, snd (print (FatalLine e) w'))
  | Some (Raise (Builtin _), w') => Some (1, w')
  end.

(** ** Worlds used in the examples *)

Definition no_network : nat -> request -> net_result :=
  fun _ _ => Fails "unreachable".

(** A remote side that answers every request with status 200 and [data]. *)
Definition always_answers (data : pyval) : nat -> request -> net_result :=
  fun _ _ => Answers (mkResponse 200 "" (Some data)).

Definition with_key : list (string * string) :=
  [("OPENWEATHER_API_KEY", "k3y")].

Definition paris_data : pyval :=
  VDict [("name", VStr "Paris");
         ("sys", VDict [("country", VStr "FR")]);
         ("weather", VList [VDict [("description", VStr "clear sky")]]);
         ("main", VDict [("temp", VFloat 21.5%float);
                         ("feels_like", VFloat 20%float);
                         ("humidity", VInt 40)]);
         ("wind", VDict [("speed", VFloat 3.5%float)])].

(** ** Auxiliary functions used to state the properties *)

(** The key [get_api_key] hands back, if any. *)
Definition credential (env : list (string * string)) : option string :=
  match getenv API_KEY_ENV_VAR env with
  | Some k => if (k =? "")%string then None else Some k
  | None => None
  end.

Definition lookup_request (city : pyval) (key : string) : request :=
  mkRequest API_BASE_URL city key "metric" 5.

(** What [get_weather] makes of a response once it has one: the statements
    after the first [try]. *)
Definition handle_response (city : pyval) (resp : response)
  : result weather_info :=
  if status_code resp =? 404 then Raise (WeatherError (CityNotFound city))
  else if negb (status_code resp =? 200)
  then Raise (WeatherError (ApiStatus (status_code resp) (text resp)))
  else
    match json resp with
    | None => Raise (Builtin JSONDecodeError)
    | Some data =>
        match build_simplified city data with
        | Ret info => Ret info
        | Raise (Builtin (KeyError k)) =>
            Raise (WeatherError (UnexpectedFormat (KeyError k)))
        | Raise (Builtin TypeError) =>
            Raise (WeatherError (UnexpectedFormat TypeError))
        | Raise e => Raise e
        end
    end.

(** The decoded body lacks one of main.temp, main.feels_like and
    main.humidity. *)
Definition has_path (data : pyval) (outer inner : string) : bool :=
  match data with
  | VDict d =>
      match dict_lookup outer d with
      | Some (VDict m) =>
          match dict_lookup inner m with
          | Some _ => true
          | None => false
          end
      | _ => false
      end
  | _ => false
  end.

Definition has_required_fields (data : pyval) : bool :=
  has_path data "main" "temp" && has_path data "main" "feels_like"
  && has_path data "main" "humidity".

Definition city_prompt : string :=
  "Enter city name (or press Enter to cancel): ".
Definition removal_prompt : string :=
  "Enter the number of the city to remove: ".

(** The world after [input] has shown its prompt and taken one line. *)
Definition after_input (prompt : string) (rest : list string) (w : World)
  : World :=
  with_stdin rest (printed [Prompt prompt] w).

(** The lines [print_numbered] writes. *)
Fixpoint numbered (idx : Z) (l : list pyval) : list output :=
  match l with
  | [] => []
  | city :: rest => NumberedItem idx city :: numbered (idx + 1) rest
  end.

(** The world once the update flow has shown the numbered favourites. *)
Definition listing_shown (w : World) : World :=
  printed (numbered 1 (favourites w))
          (printed [Text (nl ++ "Current favourites:")] w).

(** What the add flow and the replacement step do once the typed name has
    passed the membership test: validate it with a lookup, then append the
    name the lookup returned. *)
Definition validate_and_append (city : string) (w : World)
  : result unit * World :=
  match get_weather (VStr city) w with
  | (Ret info, w') =>
      (Ret tt, printed [Added (info_city info)]
                 (with_favourites (favourites w' ++ [info_city info]) w'))
  | (Raise (WeatherError e), w') => (Ret tt, printed [ErrorLine e] w')
  | (Raise (Builtin e), w') => (Raise (Builtin e), w')
  end.

(** Sequences of add and update operations on the store. *)
Inductive operation : Type := Add | Update.

Definition run_operation (o : operation) : M unit :=
  match o with
  | Add => add_favourite_flow
  | Update => update_favourites_flow
  end.

(** The world after the operations, one after the other; an exception that
    leaves a flow ends the process, so the run stops there. *)
Fixpoint run_operations (ops : list operation) (w : World) : World :=
  match ops with
  | [] => w
  | o :: rest =>
      match run_operation o w with
      | (Ret _, w') => run_operations rest w'
      | (Raise _, w') => w'
      end
  end.

(** [print_weather] goes through on a record whose city can take the
    country suffix and has a length, and whose description is a [str]. *)
Definition renders (info : weather_info) : bool :=
  (if truthy (info_country info)
   then match info_city info with
        | VStr _ | VList _ => true
        | _ => false
        end
   else match info_city info with
        | VStr _ | VList _ | VDict _ => true
        | _ => false
        end)
  && match info_description info with
     | VStr _ => true
     | _ => false
     end.

(** The lines [print_weather] writes for such a record. *)
Definition weather_block (info : weather_info) : list output :=
  let suffix := if truthy (info_country info)
                then Some (info_country info) else None in
  [WeatherFor (info_city info) suffix;
   Rule (info_city info) suffix;
   DescriptionLine (match info_description info with
                    | VStr s => s
                    | _ => ""
                    end);
   TemperatureLine (info_temp info);
   FeelsLikeLine (info_feels_like info);
   HumidityLine (info_humidity info);
   WindSpeedLine (info_wind_speed info);
   Text ""].


(** [enumerate(l, start=idx)] *)
Fixpoint enumerate (idx : Z) (l : list pyval) : list (Z * pyval) :=
  match l with
  | [] => []
  | city :: rest => (idx, city) :: enumerate (idx + 1) rest
  end.



(** A remote side that knows Paris and nothing else. *)
Definition only_paris : nat -> request -> net_result :=
  fun _ r =>
    if is_str "Paris" (q r)
    then Answers (mkResponse 200 "" (Some paris_data))
    else Answers (mkResponse 404 "city not found" None).

(** A remote side that answers for Paris and sends a page that is not JSON,
    with status 200, for any other city. *)
Definition page_unless_paris : nat -> request -> net_result :=
  fun _ r =>
    if is_str "Paris" (q r)
    then Answers (mkResponse 200 "" (Some paris_data))
    else Answers (mkResponse 200 "<html>Sign in</html>" None).

(** The remote side names every city the way it was asked for: whenever a
    lookup gives a record, the city of the record is the [q] of the
    request. *)
Definition echoes (net : nat -> request -> net_result) : Prop :=
  forall n r resp info,
    net n r = Answers resp ->
    handle_response (q r) resp = Ret info ->
    info_city info = q r.

(** A remote side of that kind: status 200, the name as requested. *)
Definition echo : nat -> request -> net_result :=
  fun _ r =>
    Answers (mkResponse 200 ""
               (Some (VDict [("name", q r);
                             ("main", VDict [("temp", VInt 1);
                                             ("feels_like", VInt 2);
                                             ("humidity", VInt 3)])]))).

(** A remote side that names every city as asked for its first two calls
    and from then on sends a page that is not JSON, with status 200. *)
Definition page_after_two : nat -> request -> net_result :=
  fun n r =>
    if (n <? 2)%nat then echo n r
    else Answers (mkResponse 200 "<html>Sign in</html>" None).

(** A computation keeps a relation between the world it starts from and the
    world it leaves. *)
Definition preserves (R : World -> World -> Prop) {A} (m : M A) : Prop :=
  forall w, R w (snd (m w)).

(** No line is ever put back on the input. *)
Definition stdin_shrinks (w w' : World) : Prop :=
  (List.length (stdin w') <= List.length (stdin w))%nat.

(** A computation that never raises [WeatherError]. *)
Definition raised {A} (r : result A) : option exn :=
  match r with
  | Ret _ => None
  | Raise e => Some e
  end.

Definition quiet {A} (m : M A) : Prop :=
  forall w e, raised (fst (m w)) <> Some (WeatherError e).

(** ** More worlds and responses for the examples *)

Definition world (env : list (string * string))
    (net : nat -> request -> net_result) (lines : list string)
    (favs : list pyval) : World :=
  mkWorld env net [] lines [] favs.

(** A well-formed answer whose first weather condition has an empty
    description. *)
Definition empty_description_data : pyval :=
  VDict [("name", VStr "Paris");
         ("weather", VList [VDict [("description", VStr "")]]);
         ("main", VDict [("temp", VInt 1); ("feels_like", VInt 2);
                         ("humidity", VInt 3)])].

(** A decoded body without the required fields and with a null [sys]. *)
Definition null_sys_data : pyval :=
  VDict [("main", VDict []); ("sys", VNone)].

(** Status 200 with a body that is not JSON. *)
Definition html_page : nat -> request -> net_result :=
  fun _ _ => Answers (mkResponse 200 "<html>Sign in</html>" None).

(** ** The domain on which the text functions are Python's *)

(** Every character of the text is an ASCII character. *)
Definition is_ascii (s : string) : bool :=
  forallb (fun c => (nat_of_ascii c <? 128)%nat) (list_ascii_of_string s).

(** ASCII text of at most 4300 characters, so of at most 4300 digits. *)
Definition short_ascii (s : string) : bool :=
  is_ascii s && (String.length s <=? 4300)%nat.

(** Every line still to be typed is ASCII text. *)
Definition ascii_input (w : World) : bool := forallb is_ascii (stdin w).

Definition is_list (v : pyval) : bool :=
  match v with
  | VList _ => true
  | _ => false
  end.

(** No entry of the store is a list. *)
Definition no_list_entry (l : list pyval) : bool :=
  forallb (fun v => negb (is_list v)) l.

(** ** Notions used in the further properties *)

(** The entry [key] of a decoded object is an object, or is not there. *)
Definition object_or_absent (key : string) (d : list (string * pyval)) : bool :=
  match dict_lookup key d with
  | None => true
  | Some (VDict _) => true
  | Some _ => false
  end.

(** The [sys] and [wind] entries of the decoded body, when it has them, are
    objects: the two values on which [get_weather] calls [.get]. *)
Definition nested_objects (data : pyval) : bool :=
  match data with
  | VDict d => object_or_absent "sys" d && object_or_absent "wind" d
  | _ => true
  end.

(** The first character of the list, if any, is not whitespace. *)
Definition starts_clean (l : list ascii) : bool :=
  match l with
  | [] => true
  | c :: _ => negb (is_space c)
  end.

(** The store is the same list before and after. *)
Definition same_store (w w' : World) : Prop := favourites w' = favourites w.

(** A request as [get_weather] builds it, with the key of the
    environment. *)
Definition request_ok (env : list (string * string)) (r : request) : Prop :=
  url r = API_BASE_URL /\ units r = "metric" /\ timeout r = 5 /\
  credential env = Some (appid r).

(** The environment and the remote side are left alone, and if every request
    sent before was well formed, so is every request sent after. *)
Definition disciplined (w w' : World) : Prop :=
  environ w' = environ w /\ network w' = network w /\
  (Forall (request_ok (environ w)) (sent w) ->
   Forall (request_ok (environ w)) (sent w')).

(** A store of at most three entries stays one. *)
Definition within_capacity (w w' : World) : Prop :=
  len (favourites w) <= 3 -> len (favourites w') <= 3.

(** The lines [print_menu] writes. *)
Definition menu_lines : list output :=
  [Text "Weather CLI"; Text "-----------";
   Text "1. Search weather for a city";
   Text "2. Add a city to favourites";
   Text "3. List favourite cities and their weather";
   Text "4. Update favourite cities (remove & add)";
   Text "5. Exit"].

(** The input still to be read is the same before and after. *)
Definition same_input (w w' : World) : Prop := stdin w' = stdin w.

(** The flow took at most [k] lines from the front of the input and left
    the rest as it was. *)
Definition reads_at_most (k : nat) (w w' : World) : Prop :=
  exists j, (j <= k)%nat /\ stdin w' = skipn j (stdin w).

(** What the list flow writes for an entry whose lookup found no key. *)
Definition missing_key_report (entry : Z * pyval) : list output :=
  [EntryHeader (fst entry) (snd entry);
   EntryError (snd entry) ApiKeyNotFound].

(** ** Notions used for the record a lookup builds *)






(** * Properties *)

(** ** The lookup, step by step *)

Lemma get_api_key_unfold (w : World) :
  get_api_key w =
  match credential (environ w) with
  | Some k => (Ret k, w)
  | None => (Raise (WeatherError ApiKeyNotFound), w)
  end.
Proof.
  unfold get_api_key, credential, os_getenv, bind, ret, raise.
  destruct (getenv API_KEY_ENV_VAR (environ w)) as [k|]; [|reflexivity].
  destruct (k =? "")%string; reflexivity.
Qed.

Lemma get_weather_unfold (city : pyval) (w : World) :
  get_weather city w =
  match credential (environ w) with
  | None => (Raise (WeatherError ApiKeyNotFound), w)
  | Some key =>
      (match network w (List.length (sent w)) (lookup_request city key) with
       | Fails cause => Raise (WeatherError (NetworkError cause))
       | Answers resp => handle_response city resp
       end,
       record_sent (lookup_request city key) w)
  end.
Proof.
  unfold get_weather, bind. rewrite get_api_key_unfold.
  destruct (credential (environ w)) as [key|]; [|reflexivity].
  unfold try_except, requests_get, lookup_request.
  destruct (network w _ _) as [cause|resp]; [reflexivity|].
  unfold handle_response, raise.
  destruct (status_code resp =? 404); [reflexivity|].
  destruct (status_code resp =? 200); simpl; [|reflexivity].
  unfold resp_json, ret, raise, lift.
  destruct (json resp) as [data|]; [|reflexivity].
  destruct (build_simplified city data) as [info|[[]|]]; reflexivity.
Qed.

(** [get_weather] sends at most one request and touches nothing else. *)
Lemma get_weather_frame (city : pyval) (w : World) :
  let w' := snd (get_weather city w) in
  environ w' = environ w /\ network w' = network w /\ stdin w' = stdin w /\
  stdout w' = stdout w /\ favourites w' = favourites w /\
  (sent w' = sent w \/ exists r, sent w' = (sent w ++ [r])%list).
Proof.
  rewrite get_weather_unfold.
  destruct (credential (environ w)); simpl; repeat split; eauto.
Qed.

(** Inversion of the record construction: a record comes out only when
    every statement of the block went through, and each field is the value
    the corresponding statement read. *)
Lemma build_simplified_inv (city data : pyval) (info : weather_info) :
  build_simplified city data = Ret info ->
  exists main weather_list wind sys_info,
    getitem data (VStr "main") = Ret main /\
    get data "weather" (VList []) = Ret weather_list /\
    (if truthy weather_list
     then exists first,
            getitem weather_list (VInt 0) = Ret first /\
            getitem first (VStr "description") = Ret (info_description info)
     else info_description info = VStr "N/A") /\
    get data "wind" (VDict []) = Ret wind /\
    get data "sys" (VDict []) = Ret sys_info /\
    get data "name" city = Ret (info_city info) /\
    get sys_info "country" (VStr "") = Ret (info_country info) /\
    getitem main (VStr "temp") = Ret (info_temp info) /\
    getitem main (VStr "feels_like") = Ret (info_feels_like info) /\
    getitem main (VStr "humidity") = Ret (info_humidity info) /\
    get wind "speed" (VFloat 0%float) = Ret (info_wind_speed info).
Proof.
  unfold build_simplified, rbind. intros H.
  destruct (getitem data (VStr "main")) as [main|] eqn:Hmain; [|discriminate].
  destruct (get data "weather" (VList [])) as [wl|] eqn:Hwl; [|discriminate].
  destruct (truthy wl) eqn:Htruthy.
  - destruct (getitem wl (VInt 0)) as [first|] eqn:Hfirst; [|discriminate].
    destruct (getitem first (VStr "description")) as [desc|] eqn:Hdesc;
      [|discriminate].
    destruct (get data "wind" (VDict [])) as [wind|] eqn:Hwind; [|discriminate].
    destruct (get data "sys" (VDict [])) as [sys_info|] eqn:Hsys; [|discriminate].
    destruct (get data "name" city) as [v1|] eqn:H1; [|discriminate].
    destruct (get sys_info "country" (VStr "")) as [v2|] eqn:H2; [|discriminate].
    destruct (getitem main (VStr "temp")) as [v3|] eqn:H3; [|discriminate].
    destruct (getitem main (VStr "feels_like")) as [v4|] eqn:H4; [|discriminate].
    destruct (getitem main (VStr "humidity")) as [v5|] eqn:H5; [|discriminate].
    destruct (get wind "speed" (VFloat 0%float)) as [v6|] eqn:H6; [|discriminate].
    injection H as <-. exists main, wl, wind, sys_info. rewrite Htruthy. simpl.
    repeat split; eauto.
  - destruct (get data "wind" (VDict [])) as [wind|] eqn:Hwind; [|discriminate].
    destruct (get data "sys" (VDict [])) as [sys_info|] eqn:Hsys; [|discriminate].
    destruct (get data "name" city) as [v1|] eqn:H1; [|discriminate].
    destruct (get sys_info "country" (VStr "")) as [v2|] eqn:H2; [|discriminate].
    destruct (getitem main (VStr "temp")) as [v3|] eqn:H3; [|discriminate].
    destruct (getitem main (VStr "feels_like")) as [v4|] eqn:H4; [|discriminate].
    destruct (getitem main (VStr "humidity")) as [v5|] eqn:H5; [|discriminate].
    destruct (get wind "speed" (VFloat 0%float)) as [v6|] eqn:H6; [|discriminate].
    injection H as <-. exists main, wl, wind, sys_info. rewrite Htruthy. simpl.
    repeat split; eauto.
Qed.

(** A record is returned only for an answered request with status 200 and a
    body that decodes and goes through the construction block. *)
Lemma get_weather_ret_inv (city : pyval) (w w' : World) (info : weather_info) :
  get_weather city w = (Ret info, w') ->
  exists key resp data,
    credential (environ w) = Some key /\
    network w (List.length (sent w)) (lookup_request city key) = Answers resp /\
    status_code resp = 200 /\ json resp = Some data /\
    build_simplified city data = Ret info /\
    w' = record_sent (lookup_request city key) w.
Proof.
  rewrite get_weather_unfold. intros H.
  destruct (credential (environ w)) as [key|]; [|discriminate].
  destruct (network w _ _) as [cause|resp] eqn:Hnet; [discriminate|].
  unfold handle_response in H.
  destruct (status_code resp =? 404); [discriminate|].
  destruct (status_code resp =? 200) eqn:H200; simpl in H; [|discriminate].
  destruct (json resp) as [data|] eqn:Hjson; [|discriminate].
  destruct (build_simplified city data) as [info'|[[]|]] eqn:Hb; try discriminate.
  injection H as <- <-. exists key, resp, data.
  apply Z.eqb_eq in H200. repeat split; assumption.
Qed.

Lemma getitem_str_dict (v : pyval) (k : string) (x : pyval) :
  getitem v (VStr k) = Ret x ->
  exists d, v = VDict d /\ dict_lookup k d = Some x.
Proof.
  destruct v; simpl; try discriminate. intros H.
  destruct (dict_lookup k d) eqn:E; [|discriminate].
  injection H as <-. eauto.
Qed.

Lemma get_dict (d : list (string * pyval)) (k : string) (default : pyval) :
  get (VDict d) k default =
  Ret (match dict_lookup k d with Some x => x | None => default end).
Proof. simpl. destruct (dict_lookup k d); reflexivity. Qed.

(** The exceptions each read of the decoded body can raise. *)
Lemma getitem_str_raises (v : pyval) (k : string) (e : exn) :
  getitem v (VStr k) = Raise e ->
  e = Builtin TypeError \/ e = Builtin (KeyError (VStr k)).
Proof.
  destruct v; simpl; intros H; try (injection H as <-; auto).
  destruct (dict_lookup k d); [discriminate|]. injection H as <-. auto.
Qed.

Lemma get_raises (v : pyval) (k : string) (default : pyval) (e : exn) :
  get v k default = Raise e -> e = Builtin AttributeError.
Proof.
  destruct v; simpl; intros H; try (injection H as <-; reflexivity).
  destruct (dict_lookup k d); discriminate.
Qed.

Lemma getitem_first_raises (v : pyval) (e : exn) :
  truthy v = true ->
  getitem v (VInt 0) = Raise e ->
  e = Builtin TypeError \/ e = Builtin (KeyError (VInt 0)).
Proof.
  destruct v; simpl; intros Ht H; try (injection H as <-; auto).
  - destruct s; [discriminate|]. discriminate.
  - destruct l; [discriminate|]. discriminate.
Qed.

Lemma build_simplified_raises (city data : pyval) (e : exn) :
  build_simplified city data = Raise e ->
  e = Builtin AttributeError \/ e = Builtin TypeError \/
  exists k, e = Builtin (KeyError k).
Proof.
  unfold build_simplified, rbind.
  repeat match goal with
         | |- context [match ?x with _ => _ end] =>
             match x with
             | getitem _ _ => idtac
             | get _ _ _ => idtac
             | truthy _ => idtac
             end;
             let E := fresh "E" in destruct x eqn:E
         end; intros H; try discriminate; injection H as <-;
  match goal with
  | E : get _ _ _ = Raise _ |- _ => apply get_raises in E; auto
  | E : getitem _ (VStr _) = Raise _ |- _ =>
      apply getitem_str_raises in E; destruct E as [-> | ->]; eauto
  | E : getitem _ (VInt 0) = Raise _, Ht : truthy _ = true |- _ =>
      apply (getitem_first_raises _ _ Ht) in E; destruct E as [-> | ->]; eauto
  end.
Qed.

(** ** Credential *)

(** C10: when the credential variable is set to the empty string, fetching
    the key raises the same error as when the variable is absent, and a
    lookup raises it too and leaves the world as it was: no request is
    sent. *)
Theorem empty_credential_is_missing (w : World) (city : pyval) :
  getenv API_KEY_ENV_VAR (environ w) = Some "" ->
  get_api_key w = (Raise (WeatherError ApiKeyNotFound), w) /\
  (forall w0, getenv API_KEY_ENV_VAR (environ w0) = None ->
              fst (get_api_key w0) = fst (get_api_key w)) /\
  get_weather city w = (Raise (WeatherError ApiKeyNotFound), w) /\
  sent (snd (get_weather city w)) = sent w.
Proof.
  intros Henv.
  assert (Hc : credential (environ w) = None)
    by (unfold credential; rewrite Henv; reflexivity).
  assert (Hk : get_api_key w = (Raise (WeatherError ApiKeyNotFound), w))
    by (rewrite get_api_key_unfold, Hc; reflexivity).
  assert (Hw : get_weather city w = (Raise (WeatherError ApiKeyNotFound), w))
    by (rewrite get_weather_unfold, Hc; reflexivity).
  repeat split; try assumption.
  - intros w0 H0. rewrite Hk, get_api_key_unfold. unfold credential.
    rewrite H0. reflexivity.
  - rewrite Hw. reflexivity.
Qed.

Lemma empty_credential_is_missing_witness :
  let w := world [("OPENWEATHER_API_KEY", "")] (always_answers paris_data)
                 [] [] in
  get_weather (VStr "Paris") w = (Raise (WeatherError ApiKeyNotFound), w).
Proof.
  intros w.
  exact (proj1 (proj2 (proj2
           (empty_credential_is_missing w (VStr "Paris") eq_refl)))).
Defined.

(** ** The record a lookup returns *)

(** C3, amended: a lookup that returns a record was answered with status
    200 and a decoded body; each of the seven fields of the record is the
    value read from that body (or its default), and the description is the
    literal N/A exactly when the weather list is falsy (absent or empty),
    otherwise the description of the first condition as it was sent. *)
Theorem successful_lookup_is_complete
    (city : pyval) (w w' : World) (info : weather_info) :
  get_weather city w = (Ret info, w') ->
  exists key resp data main weather_list wind sys_info,
    network w (List.length (sent w)) (lookup_request city key) = Answers resp /\
    status_code resp = 200 /\ json resp = Some data /\
    getitem data (VStr "main") = Ret main /\
    get data "weather" (VList []) = Ret weather_list /\
    get data "wind" (VDict []) = Ret wind /\
    get data "sys" (VDict []) = Ret sys_info /\
    get data "name" city = Ret (info_city info) /\
    get sys_info "country" (VStr "") = Ret (info_country info) /\
    getitem main (VStr "temp") = Ret (info_temp info) /\
    getitem main (VStr "feels_like") = Ret (info_feels_like info) /\
    getitem main (VStr "humidity") = Ret (info_humidity info) /\
    get wind "speed" (VFloat 0%float) = Ret (info_wind_speed info) /\
    (if truthy weather_list
     then exists first,
            getitem weather_list (VInt 0) = Ret first /\
            getitem first (VStr "description") = Ret (info_description info)
     else info_description info = VStr "N/A").
Proof.
  intros H.
  destruct (get_weather_ret_inv _ _ _ _ H)
    as (key & resp & data & _ & Hnet & H200 & Hjson & Hb & _).
  destruct (build_simplified_inv _ _ _ Hb)
    as (main & wl & wind & sys_info & Hmain & Hwl & Hdesc & Hwind & Hsys &
        Hname & Hcountry & Htemp & Hfeels & Hhum & Hspeed).
  exists key, resp, data, main, wl, wind, sys_info.
  repeat (split; [assumption|]). assumption.
Qed.

Lemma successful_lookup_is_complete_witness :
  exists key resp data main weather_list wind sys_info,
    network (world with_key (always_answers paris_data) [] []) 0%nat
            (lookup_request (VStr "paris") key) = Answers resp /\
    status_code resp = 200 /\ json resp = Some data /\
    getitem data (VStr "main") = Ret main /\
    get data "weather" (VList []) = Ret weather_list /\
    get data "wind" (VDict []) = Ret wind /\
    get data "sys" (VDict []) = Ret sys_info /\
    get data "name" (VStr "paris") = Ret (VStr "Paris") /\
    get sys_info "country" (VStr "") = Ret (VStr "FR") /\
    getitem main (VStr "temp") = Ret (VFloat 21.5%float) /\
    getitem main (VStr "feels_like") = Ret (VFloat 20%float) /\
    getitem main (VStr "humidity") = Ret (VInt 40) /\
    get wind "speed" (VFloat 0%float) = Ret (VFloat 3.5%float) /\
    (if truthy weather_list
     then exists first,
            getitem weather_list (VInt 0) = Ret first /\
            getitem first (VStr "description") = Ret (VStr "clear sky")
     else VStr "clear sky" = VStr "N/A").
Proof.
  exact (successful_lookup_is_complete (VStr "paris")
           (world with_key (always_answers paris_data) [] []) _
           (mkInfo (VStr "Paris") (VStr "FR") (VFloat 21.5%float)
                   (VFloat 20%float) (VStr "clear sky") (VInt 40)
                   (VFloat 3.5%float))
           eq_refl).
Defined.

(** C3 as stated fails: the API answers with an empty description and the
    lookup succeeds with an empty description field. *)
Lemma lookup_with_empty_description :
  let w := world with_key (always_answers empty_description_data) [] [] in
  exists info,
    fst (get_weather (VStr "Paris") w) = Ret info /\
    info_description info = VStr "".
Proof.
  exists (mkInfo (VStr "Paris") (VStr "") (VInt 1) (VInt 2) (VStr "")
                 (VInt 3) (VFloat 0%float)).
  split; vm_compute; reflexivity.
Qed.




(** ** Classification of the outcome of a lookup *)

(** The part of the precedence list that holds on every input: a network
    failure, then status 404, then any other status than 200; and a 200
    answer whose body lacks a required field never gives a record. *)
Lemma lookup_precedence (city : pyval) (w : World) (key : string) :
  credential (environ w) = Some key ->
  let outcome := fst (get_weather city w) in
  match network w (List.length (sent w)) (lookup_request city key) with
  | Fails cause => outcome = Raise (WeatherError (NetworkError cause))
  | Answers resp =>
      if status_code resp =? 404
      then outcome = Raise (WeatherError (CityNotFound city))
      else if negb (status_code resp =? 200)
      then outcome =
           Raise (WeatherError (ApiStatus (status_code resp) (text resp)))
      else match json resp with
           | None => outcome = Raise (Builtin JSONDecodeError)
           | Some data =>
               has_required_fields data = false ->
               (exists cause,
                  outcome = Raise (WeatherError (UnexpectedFormat cause))) \/
               outcome = Raise (Builtin AttributeError)
           end
  end.
Proof.
  intros Hkey outcome. subst outcome. rewrite get_weather_unfold, Hkey.
  destruct (network w _ _) as [cause|resp]; [reflexivity|].
  unfold handle_response. simpl.
  destruct (status_code resp =? 404); [reflexivity|].
  destruct (status_code resp =? 200); simpl; [|reflexivity].
  destruct (json resp) as [data|]; [|reflexivity].
  intros Hreq.
  destruct (build_simplified city data) as [info|e] eqn:Hb.
  - exfalso.
    destruct (build_simplified_inv _ _ _ Hb)
      as (main & wl & wind & sys_info & Hmain & _ & _ & _ & _ &
          _ & _ & Htemp & Hfeels & Hhum & _).
    destruct (getitem_str_dict _ _ _ Hmain) as (d & -> & Hd).
    destruct (getitem_str_dict _ _ _ Htemp) as (m & -> & Hm1).
    destruct (getitem_str_dict _ _ _ Hfeels) as (m' & Hm' & Hm2).
    injection Hm' as <-.
    destruct (getitem_str_dict _ _ _ Hhum) as (m' & Hm' & Hm3).
    injection Hm' as <-.
    unfold has_required_fields, has_path in Hreq.
    rewrite Hd, Hm1, Hm2, Hm3 in Hreq. discriminate.
  - destruct (build_simplified_raises _ _ _ Hb) as [-> | [-> | [k ->]]];
      eauto.
Qed.

(** C4 at a failing input: status 200, a body without main.temp and with a
    null [sys].  The lookup does not raise a [WeatherError]: the
    [AttributeError] of [sys_info.get] leaves [get_weather], and with it the
    search flow, the menu loop and the process (status 1, the menu is not
    shown again). *)
Theorem missing_field_with_null_sys_escapes :
  let w := world with_key (always_answers null_sys_data) ["1"; "Paris"; "5"] []
  in
  has_required_fields null_sys_data = false /\
  fst (get_weather (VStr "Paris") w) = Raise (Builtin AttributeError) /\
  option_map (fun r => (fst r, stdin (snd r))) (script w) = Some (1, ["5"]).
Proof. repeat split; vm_compute; reflexivity. Qed.

(** The same at a 200 answer whose body is not JSON at all. *)
Lemma not_json_escapes :
  let w := world with_key html_page ["1"; "Paris"; "5"] [] in
  fst (get_weather (VStr "Paris") w) = Raise (Builtin JSONDecodeError) /\
  option_map (fun r => (fst r, stdin (snd r))) (script w) = Some (1, ["5"]).
Proof. repeat split; vm_compute; reflexivity. Qed.

(** ** Prompting and the guarded lookup *)

Lemma input_unfold (prompt : string) (w : World) :
  input prompt w =
  match stdin w with
  | [] => (Raise (Builtin EOFError), printed [Prompt prompt] w)
  | line :: rest => (Ret line, after_input prompt rest w)
  end.
Proof. unfold input, bind, print. simpl. destruct (stdin w); reflexivity. Qed.

Lemma prompt_city_name_unfold (w : World) :
  prompt_city_name w =
  match stdin w with
  | [] => (Raise (Builtin EOFError), printed [Prompt city_prompt] w)
  | line :: rest =>
      (Ret (if (strip line =? "")%string then None else Some (strip line)),
       after_input city_prompt rest w)
  end.
Proof.
  unfold prompt_city_name, bind. rewrite input_unfold.
  destruct (stdin w); reflexivity.
Qed.

Lemma lookup_or_print_unfold (city : pyval) (w : World) :
  lookup_or city (fun e => print (ErrorLine e)) w =
  match get_weather city w with
  | (Ret info, w') => (Ret (Some info), w')
  | (Raise (WeatherError e), w') => (Ret None, printed [ErrorLine e] w')
  | (Raise (Builtin e), w') => (Raise (Builtin e), w')
  end.
Proof.
  unfold lookup_or, try_except, bind.
  destruct (get_weather city w) as [[info|[e|e]] w']; reflexivity.
Qed.

(** With the credential variable unset a lookup raises the
    missing-credential error and leaves the world as it was: no request is
    sent. *)
Lemma unset_credential_raises (w : World) (city : pyval) :
  getenv API_KEY_ENV_VAR (environ w) = None ->
  get_weather city w = (Raise (WeatherError ApiKeyNotFound), w).
Proof.
  intros Henv. rewrite get_weather_unfold. unfold credential.
  rewrite Henv. reflexivity.
Qed.

(** C2 at a failing input: the variable is unset and the user types 1,
    Paris, 5.  The lookup of the search raises the missing-credential error
    and no request is sent, as the claim says; but the flow prints the
    error, the menu comes back, and on Exit the process ends with status 0,
    not with a non-zero status. *)
Theorem unset_credential_exit_status_zero :
  let w := world [] no_network ["1"; "Paris"; "5"] [] in
  getenv API_KEY_ENV_VAR (environ w) = None /\
  fst (get_weather (VStr "Paris") w) = Raise (WeatherError ApiKeyNotFound) /\
  exists w', script w = Some (0, w') /\
             In (ErrorLine ApiKeyNotFound) (stdout w') /\
             In (Text "Goodbye!") (stdout w') /\
             sent w' = [].
Proof.
  split; [reflexivity|]. split; [reflexivity|].
  eexists. split; [vm_compute; reflexivity|].
  repeat split; simpl; tauto.
Qed.

(** ** The update flow, phase by phase *)

Lemma printed_nil (w : World) : printed [] w = w.
Proof. destruct w. unfold printed. simpl. rewrite app_nil_r. reflexivity. Qed.

Lemma printed_printed (a b : list output) (w : World) :
  printed b (printed a w) = printed (a ++ b) w.
Proof. unfold printed. simpl. rewrite app_assoc. reflexivity. Qed.

Lemma print_numbered_unfold (l : list pyval) (idx : Z) (w : World) :
  print_numbered idx l w = (Ret tt, printed (numbered idx l) w).
Proof.
  revert idx w. induction l as [|city rest IH]; intros idx w; simpl.
  - unfold ret. rewrite printed_nil. reflexivity.
  - unfold bind, print. rewrite IH, printed_printed. reflexivity.
Qed.

Lemma parse_unsigned_raises (l : list ascii) (e : exn) :
  parse_unsigned l = Raise e -> e = Builtin ValueError.
Proof.
  unfold parse_unsigned. destruct (parse_digits 0 false l); [discriminate|].
  intros H. injection H as <-. reflexivity.
Qed.

Lemma int_raises (s : string) (e : exn) :
  int s = Raise e -> e = Builtin ValueError.
Proof.
  unfold int, rbind.
  destruct (list_ascii_of_string (strip s)) as [|c rest].
  - apply parse_unsigned_raises.
  - destruct c as [[] [] [] [] [] [] [] []];
      try apply parse_unsigned_raises.
    destruct (parse_unsigned rest) eqn:E; [discriminate|].
    intros H. injection H as <-. exact (parse_unsigned_raises _ _ E).
Qed.

(** The first phase: listing, choice, range check, removal. *)
Lemma update_favourites_flow_unfold
    (w : World) (line : string) (rest : list string) :
  favourites w <> [] ->
  stdin w = line :: rest ->
  let w1 := after_input removal_prompt rest (listing_shown w) in
  update_favourites_flow w =
  match int (strip line) with
  | Raise _ =>
      (Ret tt, printed [Text ("Invalid input. Please enter a number." ++ nl)] w1)
  | Ret choice =>
      if negb ((1 <=? choice) && (choice <=? len (favourites w)))
      then (Ret tt, printed [Text ("Choice out of range." ++ nl)] w1)
      else
        match seq_index (favourites w) (choice - 1) with
        | Some x =>
            update_replacement
              (printed [Removed x]
                 (with_favourites
                    (remove_nth (Z.to_nat (choice - 1)) (favourites w)) w1))
        | None => (Raise (Builtin IndexError), w1)
        end
  end.
Proof.
  intros Hne Hin w1. unfold update_favourites_flow.
  cbv beta iota delta [bind get_favourites print].
  destruct (favourites w) as [|f fs] eqn:Hf; [contradiction|].
  cbv beta iota delta [truthy negb].
  rewrite print_numbered_unfold.
  cbv beta iota delta [try_except bind].
  rewrite input_unfold. cbn [stdin printed]. rewrite Hin.
  cbv beta iota delta [lift ret].
  assert (Hw1 : favourites w1 = f :: fs)
    by (unfold w1, listing_shown; simpl; exact Hf).
  change (after_input "Enter the number of the city to remove: " rest
            (printed (numbered 1 (f :: fs))
               (printed [Text (nl ++ "Current favourites:")] w)))
    with (after_input removal_prompt rest
            (printed (numbered 1 (f :: fs))
               (printed [Text (nl ++ "Current favourites:")] w))).
  replace (after_input removal_prompt rest
            (printed (numbered 1 (f :: fs))
               (printed [Text (nl ++ "Current favourites:")] w))) with w1
    by (unfold w1, listing_shown; rewrite Hf; reflexivity).
  clearbody w1.
  destruct (int (strip line)) as [choice|e] eqn:Hint.
  - rewrite Hw1.
    destruct ((1 <=? choice) && (choice <=? len (f :: fs))) eqn:Hr;
      [|reflexivity].
    cbv beta iota delta [favourites_pop bind get_favourites set_favourites ret
                         raise].
    rewrite Hw1.
    destruct (seq_index (f :: fs) (choice - 1)) as [x|] eqn:Hx;
      [|reflexivity].
    replace (choice - 1 <? 0) with false; [reflexivity|].
    symmetry. apply Z.ltb_ge. apply andb_true_iff in Hr.
    destruct Hr as [Hr _]. apply Z.leb_le in Hr. lia.
  - rewrite (int_raises _ _ Hint). reflexivity.
Qed.

(** C7: in the update flow over a non-empty store, a removal choice that is
    not a number, or a number below 1 or above the length of the store,
    ends the flow with the matching error line; nothing is removed, no
    request is sent and no further line is read.  The line typed is ASCII
    text of at most 4300 characters, on which [strip] and [int] are
    Python's. *)
Theorem invalid_removal_choice_aborts
    (w : World) (line : string) (rest : list string) :
  favourites w <> [] ->
  stdin w = line :: rest ->
  short_ascii line = true ->
  let w1 := after_input removal_prompt rest (listing_shown w) in
  (int (strip line) = Raise (Builtin ValueError) ->
   update_favourites_flow w =
   (Ret tt, printed [Text ("Invalid input. Please enter a number." ++ nl)] w1))
  /\
  (forall choice,
     int (strip line) = Ret choice ->
     choice < 1 \/ len (favourites w) < choice ->
     update_favourites_flow w =
     (Ret tt, printed [Text ("Choice out of range." ++ nl)] w1)) /\
  (int (strip line) = Raise (Builtin ValueError) \/
   (exists choice, int (strip line) = Ret choice /\
                   (choice < 1 \/ len (favourites w) < choice)) ->
   let w' := snd (update_favourites_flow w) in
   favourites w' = favourites w /\ sent w' = sent w /\ stdin w' = rest).
Proof.
  intros Hne Hin _ w1.
  pose proof (update_favourites_flow_unfold w line rest Hne Hin) as Hu.
  cbv zeta in Hu. fold w1 in Hu.
  assert (Hinvalid :
            int (strip line) = Raise (Builtin ValueError) ->
            update_favourites_flow w =
            (Ret tt,
             printed [Text ("Invalid input. Please enter a number." ++ nl)] w1)).
  { intros Hint. rewrite Hu, Hint. reflexivity. }
  assert (Hrange :
            forall choice,
              int (strip line) = Ret choice ->
              choice < 1 \/ len (favourites w) < choice ->
              update_favourites_flow w =
              (Ret tt, printed [Text ("Choice out of range." ++ nl)] w1)).
  { intros choice Hint Hout. rewrite Hu, Hint.
    replace ((1 <=? choice) && (choice <=? len (favourites w))) with false;
      [reflexivity|].
    symmetry. apply andb_false_iff.
    destruct Hout; [left; apply Z.leb_gt | right; apply Z.leb_gt]; lia. }
  split; [exact Hinvalid|]. split; [exact Hrange|].
  intros [Hint | (choice & Hint & Hout)] w'; subst w'.
  - rewrite (Hinvalid Hint). repeat split.
  - rewrite (Hrange choice Hint Hout). repeat split.
Qed.

Lemma invalid_removal_choice_aborts_witness :
  let w := world with_key (always_answers paris_data) ["two"; "Berlin"]
                 [VStr "Paris"; VStr "Tokyo"] in
  let w0 := world with_key (always_answers paris_data) ["3"; "Berlin"]
                  [VStr "Paris"; VStr "Tokyo"] in
  favourites (snd (update_favourites_flow w)) = [VStr "Paris"; VStr "Tokyo"] /\
  favourites (snd (update_favourites_flow w0)) = [VStr "Paris"; VStr "Tokyo"].
Proof.
  intros w w0. split.
  - refine (proj1 (proj2 (proj2
              (invalid_removal_choice_aborts w "two" ["Berlin"] _ eq_refl
                 eq_refl)) _)).
    + discriminate.
    + left. reflexivity.
  - refine (proj1 (proj2 (proj2
              (invalid_removal_choice_aborts w0 "3" ["Berlin"] _ eq_refl
                 eq_refl)) _)).
    + discriminate.
    + right. exists 3. split; [reflexivity|]. right. reflexivity.
Defined.

Lemma remove_nth_middle {A} (before after : list A) (x : A) :
  remove_nth (List.length before) (before ++ x :: after) =
  (before ++ after)%list.
Proof.
  unfold remove_nth.
  induction before as [|b before IH]; [reflexivity|].
  cbn [List.length firstn skipn app] in *. rewrite IH. reflexivity.
Qed.

Lemma seq_index_split {A} (l : list A) (i : Z) :
  0 <= i < len l ->
  exists before x after,
    l = (before ++ x :: after)%list /\ len before = i /\
    seq_index l i = Some x /\
    remove_nth (Z.to_nat i) l = (before ++ after)%list.
Proof.
  unfold len. intros Hi.
  assert (Hn : (Z.to_nat i < List.length l)%nat) by lia.
  destruct (nth_error l (Z.to_nat i)) as [x|] eqn:Hx;
    [|apply nth_error_None in Hx; lia].
  destruct (nth_error_split l (Z.to_nat i) Hx) as (before & after & Hl & Hlen).
  exists before, x, after. repeat split.
  - exact Hl.
  - lia.
  - unfold seq_index.
    replace ((0 <=? i) && (i <? Z.of_nat (List.length l))) with true;
      [exact Hx|].
    symmetry. apply andb_true_iff. split; [apply Z.leb_le | apply Z.ltb_lt]; lia.
  - rewrite Hl, <- Hlen. apply remove_nth_middle.
Qed.

(** C8: in the update flow, a choice between 1 and the length of the store
    removes the entry at that position: the store was before ++ x :: after
    with choice - 1 entries in before, it becomes before ++ after (one entry
    fewer, the others in their order), the removed name x is printed, and
    the flow goes on to the replacement step from there.  The line typed is
    ASCII text of at most 4300 characters, on which [strip] and [int] are
    Python's. *)
Theorem removal_at_valid_position
    (w : World) (line : string) (rest : list string) (choice : Z) :
  stdin w = line :: rest ->
  short_ascii line = true ->
  int (strip line) = Ret choice ->
  1 <= choice <= len (favourites w) ->
  exists before x after,
    favourites w = (before ++ x :: after)%list /\
    len before = choice - 1 /\
    let w1 := printed [Removed x]
                (with_favourites (before ++ after)
                   (after_input removal_prompt rest (listing_shown w))) in
    update_favourites_flow w = update_replacement w1 /\
    favourites w1 = (before ++ after)%list /\
    len (favourites w1) = len (favourites w) - 1 /\
    stdout w1 =
    (stdout (listing_shown w) ++ [Prompt removal_prompt; Removed x])%list.
Proof.
  intros Hin _ Hint Hrange.
  assert (Hne : favourites w <> [])
    by (intros E; rewrite E in Hrange; unfold len in Hrange; simpl in Hrange;
        lia).
  destruct (seq_index_split (favourites w) (choice - 1))
    as (before & x & after & Hl & Hlen & Hx & Hrm); [lia|].
  exists before, x, after. split; [exact Hl|]. split; [exact Hlen|].
  cbv zeta. split; [|split; [|split]].
  - rewrite (update_favourites_flow_unfold w line rest Hne Hin), Hint.
    replace ((1 <=? choice) && (choice <=? len (favourites w))) with true
      by (symmetry; apply andb_true_iff; split; apply Z.leb_le; lia).
    cbn [negb]. rewrite Hx, Hrm. reflexivity.
  - reflexivity.
  - cbn [favourites printed with_favourites]. rewrite Hl. unfold len.
    rewrite !length_app. simpl. lia.
  - cbn [stdout printed with_favourites after_input with_stdin].
    rewrite <- app_assoc. reflexivity.
Qed.

Lemma removal_at_valid_position_witness :
  let w := world with_key (always_answers paris_data) ["2"; ""]
                 [VStr "Paris"; VStr "Tokyo"; VStr "Lagos"] in
  exists before x after,
    favourites w = (before ++ x :: after)%list /\
    len before = 2 - 1 /\
    let w1 := printed [Removed x]
                (with_favourites (before ++ after)
                   (after_input removal_prompt [""] (listing_shown w))) in
    update_favourites_flow w = update_replacement w1 /\
    favourites w1 = (before ++ after)%list /\
    len (favourites w1) = len (favourites w) - 1 /\
    stdout w1 =
    (stdout (listing_shown w) ++ [Prompt removal_prompt; Removed x])%list.
Proof.
  intros w.
  refine (removal_at_valid_position w "2" [""] 2 eq_refl eq_refl eq_refl _).
  vm_compute. split; discriminate.
Defined.

(** ** Validation and append *)

Lemma validate_and_append_unfold (city : string) (w : World) :
  (r <- lookup_or (VStr city) (fun e => print (ErrorLine e)) ;;
   match r with
   | None => ret tt
   | Some info =>
       favourites_append (info_city info) ;;; print (Added (info_city info))
   end) w = validate_and_append city w.
Proof.
  unfold bind at 1. rewrite lookup_or_print_unfold. unfold validate_and_append.
  destruct (get_weather (VStr city) w) as [[info|[e|e]] w']; reflexivity.
Qed.

Lemma update_replacement_unfold (w : World) :
  update_replacement w =
  match stdin w with
  | [] => (Raise (Builtin EOFError), printed [Prompt city_prompt] w)
  | line :: rest =>
      let w1 := after_input city_prompt rest w in
      if (strip line =? "")%string
      then (Ret tt,
            printed [Text ("Update cancelled. No new city added." ++ nl)] w1)
      else if str_in (strip line) (favourites w)
      then (Ret tt, printed [AlreadyFavourite (strip line)] w1)
      else validate_and_append (strip line) w1
  end.
Proof.
  unfold update_replacement. unfold bind at 1.
  rewrite prompt_city_name_unfold.
  destruct (stdin w) as [|line rest]; [reflexivity|]. cbv zeta.
  destruct (strip line =? "")%string; [reflexivity|].
  unfold bind at 1, get_favourites at 1.
  change (favourites (after_input city_prompt rest w)) with (favourites w).
  destruct (str_in (strip line) (favourites w)); [reflexivity|].
  apply validate_and_append_unfold.
Qed.

Lemma add_favourite_flow_unfold (w : World) :
  add_favourite_flow w =
  if 3 <=? len (favourites w)
  then (Ret tt,
        printed [Text ("You already have 3 favourite cities. "
                       ++ "Use 'Update Favourite Cities' to change them."
                       ++ nl)] w)
  else
    match stdin w with
    | [] => (Raise (Builtin EOFError), printed [Prompt city_prompt] w)
    | line :: rest =>
        let w1 := after_input city_prompt rest w in
        if (strip line =? "")%string
        then (Ret tt, printed [Text ("Add favourite cancelled." ++ nl)] w1)
        else if str_in (strip line) (favourites w)
        then (Ret tt, printed [AlreadyFavourite (strip line)] w1)
        else validate_and_append (strip line) w1
    end.
Proof.
  unfold add_favourite_flow. unfold bind at 1, get_favourites at 1.
  destruct (3 <=? len (favourites w)); [reflexivity|].
  unfold bind at 1. rewrite prompt_city_name_unfold.
  destruct (stdin w) as [|line rest]; [reflexivity|]. cbv zeta.
  destruct (strip line =? "")%string; [reflexivity|].
  unfold bind at 1, get_favourites at 1.
  change (favourites (after_input city_prompt rest w)) with (favourites w).
  destruct (str_in (strip line) (favourites w)); [reflexivity|].
  apply validate_and_append_unfold.
Qed.

(** The store after validation: unchanged, or one name longer. *)
Lemma validate_and_append_favourites (city : string) (w : World) :
  let w' := snd (validate_and_append city w) in
  match fst (get_weather (VStr city) w) with
  | Ret info => favourites w' = (favourites w ++ [info_city info])%list
  | Raise _ => favourites w' = favourites w
  end.
Proof.
  unfold validate_and_append.
  pose proof (get_weather_frame (VStr city) w) as Hf. cbv zeta in Hf.
  destruct (get_weather (VStr city) w) as [[info|[e|e]] w1]; simpl in *;
    destruct Hf as (_ & _ & _ & _ & Hf & _); rewrite Hf; reflexivity.
Qed.

Lemma get_weather_fst_frame (city : pyval) (w w0 : World) :
  environ w0 = environ w -> network w0 = network w -> sent w0 = sent w ->
  fst (get_weather city w0) = fst (get_weather city w).
Proof.
  intros He Hn Hs. rewrite !get_weather_unfold, He, Hn, Hs.
  destruct (credential (environ w)); reflexivity.
Qed.

(** C6: in the update flow, after a valid removal, a replacement step that
    is cancelled (empty input), rejected as a duplicate, or whose lookup
    raises leaves the removal in place: the store is the old one without the
    chosen entry, exactly one entry shorter.  The two lines typed are ASCII
    text, the choice of at most 4300 characters: the text on which [strip]
    and [int] are Python's. *)
Theorem failed_replacement_keeps_removal
    (w : World) (line line2 : string) (rest : list string) (choice : Z) :
  stdin w = line :: line2 :: rest ->
  short_ascii line = true ->
  is_ascii line2 = true ->
  int (strip line) = Ret choice ->
  1 <= choice <= len (favourites w) ->
  let remaining := remove_nth (Z.to_nat (choice - 1)) (favourites w) in
  (strip line2 = "" \/
   str_in (strip line2) remaining = true \/
   exists e, fst (get_weather (VStr (strip line2)) w) = Raise e) ->
  let w' := snd (update_favourites_flow w) in
  favourites w' = remaining /\ len (favourites w') = len (favourites w) - 1.
Proof.
  intros Hin _ _ Hint Hrange remaining Hfail w'.
  assert (Hne : favourites w <> [])
    by (intros E; rewrite E in Hrange; unfold len in Hrange; simpl in Hrange;
        lia).
  destruct (seq_index_split (favourites w) (choice - 1))
    as (before & x & after & Hl & Hlen & Hx & Hrm); [lia|].
  assert (Hshort : len remaining = len (favourites w) - 1).
  { unfold remaining. rewrite Hrm, Hl. unfold len. rewrite !length_app.
    simpl. lia. }
  enough (Hfav : favourites w' = remaining)
    by (split; [exact Hfav | rewrite Hfav; exact Hshort]).
  subst w'.
  rewrite (update_favourites_flow_unfold w line (line2 :: rest) Hne Hin), Hint.
  replace ((1 <=? choice) && (choice <=? len (favourites w))) with true
    by (symmetry; apply andb_true_iff; split; apply Z.leb_le; lia).
  cbn [negb]. rewrite Hx. fold remaining.
  rewrite update_replacement_unfold.
  cbn [stdin printed with_favourites after_input with_stdin]. cbv zeta.
  destruct (strip line2 =? "")%string eqn:Hempty; [reflexivity|].
  cbn [favourites printed with_favourites after_input with_stdin].
  destruct (str_in (strip line2) remaining) eqn:Hdup; [reflexivity|].
  destruct Hfail as [Hfail | [Hfail | (e & Hfail)]].
  - apply String.eqb_neq in Hempty. contradiction.
  - discriminate.
  - match goal with
    | |- favourites (snd (validate_and_append ?c ?w0)) = _ =>
        pose proof (validate_and_append_favourites c w0) as Hv;
        cbv zeta in Hv;
        rewrite (get_weather_fst_frame (VStr c) w w0) in Hv
          by reflexivity
    end.
    rewrite Hfail in Hv. exact Hv.
Qed.

Lemma failed_replacement_keeps_removal_witness :
  let w := world with_key no_network ["1"; "Berlin"]
                 [VStr "Paris"; VStr "Tokyo"] in
  favourites (snd (update_favourites_flow w)) = [VStr "Tokyo"] /\
  len (favourites (snd (update_favourites_flow w))) = 2 - 1.
Proof.
  intros w.
  refine (failed_replacement_keeps_removal w "1" "Berlin" [] 1
            eq_refl eq_refl eq_refl eq_refl _ _).
  - vm_compute. split; discriminate.
  - right. right. eexists. vm_compute. reflexivity.
Defined.

(** ** Capacity of the store *)

Lemma update_favourites_flow_empty (w : World) :
  favourites w = [] ->
  favourites (snd (update_favourites_flow w)) = [].
Proof.
  intros Hf. unfold update_favourites_flow.
  unfold bind at 1, get_favourites at 1. rewrite Hf. exact Hf.
Qed.

Lemma update_favourites_flow_eof (w : World) :
  favourites w <> [] ->
  stdin w = [] ->
  update_favourites_flow w =
  (Raise (Builtin EOFError),
   printed [Prompt removal_prompt] (listing_shown w)).
Proof.
  intros Hne Hin. unfold update_favourites_flow.
  cbv beta iota delta [bind get_favourites print].
  destruct (favourites w) as [|f fs] eqn:Hf; [contradiction|].
  cbv beta iota delta [truthy negb].
  rewrite print_numbered_unfold.
  cbv beta iota delta [try_except bind].
  rewrite input_unfold. cbn [stdin printed]. rewrite Hin.
  unfold listing_shown. rewrite Hf. reflexivity.
Qed.

Lemma validate_and_append_length (city : string) (w : World) :
  len (favourites (snd (validate_and_append city w))) <= len (favourites w) + 1.
Proof.
  pose proof (validate_and_append_favourites city w) as Hv. cbv zeta in Hv.
  destruct (fst (get_weather (VStr city) w)); rewrite Hv; unfold len;
    [rewrite length_app; simpl|]; lia.
Qed.

Lemma add_favourite_flow_capacity (w : World) :
  len (favourites w) <= 3 ->
  len (favourites (snd (add_favourite_flow w))) <= 3.
Proof.
  intros Hcap. rewrite add_favourite_flow_unfold.
  destruct (3 <=? len (favourites w)) eqn:Hfull; [exact Hcap|].
  apply Z.leb_gt in Hfull.
  destruct (stdin w) as [|line rest]; [exact Hcap|]. cbv zeta.
  destruct (strip line =? "")%string; [exact Hcap|].
  destruct (str_in (strip line) (favourites w)); [exact Hcap|].
  pose proof (validate_and_append_length (strip line)
                (after_input city_prompt rest w)) as Hv.
  cbn [favourites after_input with_stdin printed] in Hv. lia.
Qed.

Lemma update_favourites_flow_capacity (w : World) :
  len (favourites w) <= 3 ->
  len (favourites (snd (update_favourites_flow w))) <= 3.
Proof.
  intros Hcap.
  destruct (favourites w) as [|f fs] eqn:Hf.
  { rewrite (update_favourites_flow_empty w Hf). unfold len. simpl. lia. }
  assert (Hne : favourites w <> []) by (rewrite Hf; discriminate).
  destruct (stdin w) as [|line rest] eqn:Hin.
  { rewrite (update_favourites_flow_eof w Hne Hin). simpl.
    rewrite Hf. exact Hcap. }
  rewrite (update_favourites_flow_unfold w line rest Hne Hin).
  destruct (int (strip line)) as [choice|e];
    [|simpl; rewrite Hf; exact Hcap].
  destruct ((1 <=? choice) && (choice <=? len (favourites w))) eqn:Hr;
    cbn [negb]; [|simpl; rewrite Hf; exact Hcap].
  apply andb_true_iff in Hr. destruct Hr as [H1 H2].
  apply Z.leb_le in H1, H2.
  destruct (seq_index_split (favourites w) (choice - 1))
    as (before & x & after & Hl & Hlen & Hx & Hrm); [lia|].
  rewrite Hx, Hrm.
  assert (Hshort : len (before ++ after)%list = len (favourites w) - 1).
  { rewrite Hl. unfold len. rewrite !length_app. simpl. lia. }
  rewrite Hf in Hshort.
  rewrite update_replacement_unfold.
  cbn [stdin printed with_favourites after_input with_stdin].
  destruct rest as [|line2 rest2]; [simpl; lia|]. cbv zeta.
  destruct (strip line2 =? "")%string; [simpl; lia|].
  cbn [favourites printed with_favourites after_input with_stdin].
  destruct (str_in (strip line2) (before ++ after)); [simpl; lia|].
  match goal with
  | |- len (favourites (snd (validate_and_append ?c ?w0))) <= 3 =>
      pose proof (validate_and_append_length c w0) as Hv
  end.
  cbn [favourites printed with_favourites after_input with_stdin] in Hv. lia.
Qed.

(** The first half of C1, which holds: whatever is typed and whatever the
    API answers, no sequence of add and update operations takes the store
    beyond three entries. *)
Lemma run_operations_capacity (ops : list operation) (w : World) :
  len (favourites w) <= 3 ->
  len (favourites (run_operations ops w)) <= 3.
Proof.
  revert w. induction ops as [|o ops IH]; intros w Hcap; [exact Hcap|].
  simpl.
  assert (Hstep : len (favourites (snd (run_operation o w))) <= 3)
    by (destruct o; [apply add_favourite_flow_capacity
                    | apply update_favourites_flow_capacity]; exact Hcap).
  destruct (run_operation o w) as [[[]|e] w1]; simpl in Hstep; auto.
Qed.

(** C1 at a failing input: from the empty store the user adds paris twice.
    The API names the city Paris both times; the typed paris is not in the
    store either time, so Paris is appended twice. *)
Theorem duplicate_name_after_two_adds :
  let w := world with_key (always_answers paris_data) ["paris"; "paris"] [] in
  favourites (run_operations [Add; Add] w) = [VStr "Paris"; VStr "Paris"] /\
  ~ NoDup (favourites (run_operations [Add; Add] w)).
Proof.
  assert (H : favourites
                (run_operations [Add; Add]
                   (world with_key (always_answers paris_data)
                          ["paris"; "paris"] []))
              = [VStr "Paris"; VStr "Paris"])
    by (vm_compute; reflexivity).
  cbv zeta. rewrite H. split; [reflexivity|].
  intros Hnd. inversion Hnd as [|? ? Hnotin _]. apply Hnotin. left. reflexivity.
Qed.

(** ** The list flow *)

Lemma print_weather_renders (info : weather_info) (w : World) :
  renders info = true ->
  print_weather info w = (Ret tt, printed (weather_block info) w).
Proof.
  unfold renders, print_weather, weather_block. intros Hr.
  apply andb_true_iff in Hr. destruct Hr as [Hcity Hdesc].
  destruct (info_description info); try discriminate.
  destruct (truthy (info_country info));
    destruct (info_city info); try discriminate;
    cbv beta iota delta [bind print ret]; rewrite !printed_printed;
    reflexivity.
Qed.

(** One pass of the loop body after the header, whatever the lookup
    does. *)
Lemma list_entry_unfold (city : pyval) (w : World) :
  try_except (info <- get_weather city ;; print_weather info)
    (fun e => match e with
              | WeatherError we => Some (print (EntryError city we))
              | Builtin _ => None
              end) w =
  match get_weather city w with
  | (Ret info, w1) =>
      match print_weather info w1 with
      | (Raise (WeatherError we), w2) => (Ret tt, printed [EntryError city we] w2)
      | other => other
      end
  | (Raise (WeatherError we), w1) => (Ret tt, printed [EntryError city we] w1)
  | (Raise (Builtin e), w1) => (Raise (Builtin e), w1)
  end.
Proof.
  unfold try_except, bind.
  destruct (get_weather city w) as [[info|[e|e]] w1]; try reflexivity.
  destruct (print_weather info w1) as [[[]|[e|e]] w2]; reflexivity.
Qed.

(** A failure of the lookup of one entry is printed and the loop goes on
    with the entries after it. *)
Lemma list_loop_failure_continues
    (idx : Z) (city : pyval) (rest : list pyval) (w w1 : World)
    (e : weather_error) :
  get_weather city (printed [EntryHeader idx city] w)
  = (Raise (WeatherError e), w1) ->
  list_loop idx (city :: rest) w =
  list_loop (idx + 1) rest (printed [EntryError city e] w1).
Proof.
  intros Hfail. cbn [list_loop].
  unfold bind at 1, print at 1. unfold bind at 1.
  rewrite list_entry_unfold, Hfail. reflexivity.
Qed.






(** C9 at a failing input: the store holds Atlantis and Paris, and the
    answer to the lookup of Atlantis has status 200 and a body that is not
    JSON.  The decode error is not a [WeatherError]: it is not reported
    inline, it leaves the loop and the flow, and Paris is never looked
    up. *)
Theorem list_flow_aborts_on_undecodable_answer :
  let w := world with_key page_unless_paris []
                 [VStr "Atlantis"; VStr "Paris"] in
  let w' := snd (list_favourites_flow w) in
  fst (list_favourites_flow w) = Raise (Builtin JSONDecodeError) /\
  map q (sent w') = [VStr "Atlantis"] /\
  stdout w' =
  [Text (nl ++ "Favourite cities and their current weather:");
   Text "-------------------------------------------";
   EntryHeader 1 (VStr "Atlantis")].
Proof. vm_compute. repeat split. Qed.

(** The same in a whole run: the user adds Atlantis and Paris while the API
    answers, then lists them when a page comes back instead.  The run ends
    with status 1 in the list flow, after the lookup of Atlantis and before
    any lookup of Paris; the Exit choice is never read. *)
Lemma listing_ends_the_run :
  let w := world with_key page_after_two
                 ["2"; "Atlantis"; "2"; "Paris"; "3"; "5"] [] in
  exists w',
    script w = Some (1, w') /\
    favourites w' = [VStr "Atlantis"; VStr "Paris"] /\
    map q (sent w') = [VStr "Atlantis"; VStr "Paris"; VStr "Atlantis"] /\
    stdin w' = ["5"].
Proof. eexists. split; [vm_compute; reflexivity|]. repeat split. Qed.

(** The same run, evaluated: Atlantis is not found, Paris is still looked up
    and rendered. *)
Lemma list_flow_after_a_failure :
  let w := world with_key only_paris [] [VStr "Atlantis"; VStr "Paris"] in
  let w' := snd (list_favourites_flow w) in
  map q (sent w') = [VStr "Atlantis"; VStr "Paris"] /\
  In (EntryError (VStr "Atlantis") (CityNotFound (VStr "Atlantis")))
     (stdout w') /\
  In (DescriptionLine "clear sky") (stdout w').
Proof. vm_compute. tauto. Qed.

(** ** Termination of the menu loop *)

(** Relations kept by every building block of the monad. *)
Section Preserved.
Variable R : World -> World -> Prop.
Hypothesis R_refl : forall w, R w w.
Hypothesis R_trans : forall a b c, R a b -> R b c -> R a c.

Lemma preserves_ret {A} (a : A) : preserves R (ret a).
Proof. intros w. apply R_refl. Qed.

Lemma preserves_raise {A} (e : exn) : preserves R (@raise A e).
Proof. intros w. apply R_refl. Qed.

Lemma preserves_lift {A} (r : result A) : preserves R (lift r).
Proof. intros w. apply R_refl. Qed.

Lemma preserves_bind {A B} (m : M A) (k : A -> M B) :
  preserves R m -> (forall a, preserves R (k a)) -> preserves R (bind m k).
Proof.
  intros Hm Hk w. unfold bind. specialize (Hm w).
  destruct (m w) as [[a|e] w1]; simpl in *; [|exact Hm].
  exact (R_trans _ _ _ Hm (Hk a w1)).
Qed.

Lemma preserves_try_except {A} (m : M A) (h : exn -> option (M A)) :
  preserves R m ->
  (forall e k, h e = Some k -> preserves R k) ->
  preserves R (try_except m h).
Proof.
  intros Hm Hh w. unfold try_except. specialize (Hm w).
  destruct (m w) as [[a|e] w1]; simpl in *; [exact Hm|].
  destruct (h e) as [k|] eqn:Hk; [|exact Hm].
  exact (R_trans _ _ _ Hm (Hh e k Hk w1)).
Qed.
End Preserved.

Lemma stdin_shrinks_refl (w : World) : stdin_shrinks w w.
Proof. unfold stdin_shrinks. lia. Qed.

Lemma stdin_shrinks_trans (a b c : World) :
  stdin_shrinks a b -> stdin_shrinks b c -> stdin_shrinks a c.
Proof. unfold stdin_shrinks. lia. Qed.

Lemma shrinks_print (o : output) : preserves stdin_shrinks (print o).
Proof. intros w. unfold stdin_shrinks. simpl. lia. Qed.

Lemma shrinks_input (prompt : string) : preserves stdin_shrinks (input prompt).
Proof.
  intros w. rewrite input_unfold. unfold stdin_shrinks.
  destruct (stdin w) eqn:E; simpl; rewrite ?E; simpl; lia.
Qed.

Lemma shrinks_get_favourites : preserves stdin_shrinks get_favourites.
Proof. intros w. apply stdin_shrinks_refl. Qed.

Lemma shrinks_set_favourites (l : list pyval) :
  preserves stdin_shrinks (set_favourites l).
Proof. intros w. unfold stdin_shrinks. simpl. lia. Qed.

Lemma shrinks_get_weather (city : pyval) :
  preserves stdin_shrinks (get_weather city).
Proof.
  intros w. unfold stdin_shrinks.
  destruct (get_weather_frame city w) as (_ & _ & -> & _). lia.
Qed.

Create HintDb shrinks.
#[local] Hint Resolve shrinks_print shrinks_input shrinks_get_favourites
  shrinks_set_favourites shrinks_get_weather : shrinks.
#[local] Hint Extern 1 (preserves stdin_shrinks (ret _)) =>
  apply preserves_ret; exact stdin_shrinks_refl : shrinks.
#[local] Hint Extern 1 (preserves stdin_shrinks (raise _)) =>
  apply preserves_raise; exact stdin_shrinks_refl : shrinks.
#[local] Hint Extern 1 (preserves stdin_shrinks (lift _)) =>
  apply preserves_lift; exact stdin_shrinks_refl : shrinks.

(** Walks through a computation built from binds, handlers and branches. *)
Ltac shrinks :=
  repeat
    (cbv beta zeta;
     match goal with
     | |- preserves _ (bind _ _) =>
         apply (preserves_bind _ stdin_shrinks_trans); [|intro]
     | |- preserves _ (try_except _ _) =>
         apply (preserves_try_except _ stdin_shrinks_trans);
         [|let e := fresh "e" in
           let k := fresh "k" in
           let H := fresh "H" in
           intros e k H;
           repeat match type of H with
                  | context [match ?x with _ => _ end] => destruct x
                  end;
           try discriminate; injection H as <-]
     | |- preserves _ (if ?b then _ else _) => destruct b
     | |- preserves _ (match ?x with _ => _ end) => destruct x
     | |- _ => solve [auto with shrinks]
     end).

Lemma shrinks_print_weather (info : weather_info) :
  preserves stdin_shrinks (print_weather info).
Proof. unfold print_weather. shrinks. Qed.

Lemma shrinks_prompt_city_name : preserves stdin_shrinks prompt_city_name.
Proof. unfold prompt_city_name. shrinks. Qed.

Lemma shrinks_lookup_or (city : pyval) (h : weather_error -> M unit) :
  (forall e, preserves stdin_shrinks (h e)) ->
  preserves stdin_shrinks (lookup_or city h).
Proof. intros Hh. unfold lookup_or. shrinks. Qed.

#[local] Hint Resolve shrinks_print_weather shrinks_prompt_city_name : shrinks.
#[local] Hint Extern 2 (preserves stdin_shrinks (lookup_or _ _)) =>
  apply shrinks_lookup_or; intro : shrinks.

Lemma shrinks_favourites_append (x : pyval) :
  preserves stdin_shrinks (favourites_append x).
Proof. unfold favourites_append. shrinks. Qed.

Lemma shrinks_favourites_pop (i : Z) :
  preserves stdin_shrinks (favourites_pop i).
Proof. unfold favourites_pop. shrinks. Qed.

#[local] Hint Resolve shrinks_favourites_append shrinks_favourites_pop
  : shrinks.

Lemma shrinks_search_city_flow : preserves stdin_shrinks search_city_flow.
Proof. unfold search_city_flow. shrinks. Qed.

Lemma shrinks_add_favourite_flow : preserves stdin_shrinks add_favourite_flow.
Proof. unfold add_favourite_flow. shrinks. Qed.

Lemma shrinks_list_loop (l : list pyval) (idx : Z) :
  preserves stdin_shrinks (list_loop idx l).
Proof.
  revert idx. induction l as [|city rest IH]; intros idx; cbn [list_loop];
    shrinks.
Qed.

Lemma shrinks_print_numbered (l : list pyval) (idx : Z) :
  preserves stdin_shrinks (print_numbered idx l).
Proof.
  revert idx. induction l as [|city rest IH]; intros idx;
    cbn [print_numbered]; shrinks.
Qed.

#[local] Hint Resolve shrinks_list_loop shrinks_print_numbered : shrinks.

Lemma shrinks_list_favourites_flow :
  preserves stdin_shrinks list_favourites_flow.
Proof. unfold list_favourites_flow. shrinks. Qed.

Lemma shrinks_update_replacement : preserves stdin_shrinks update_replacement.
Proof. unfold update_replacement. shrinks. Qed.

#[local] Hint Resolve shrinks_update_replacement : shrinks.

Lemma shrinks_update_favourites_flow :
  preserves stdin_shrinks update_favourites_flow.
Proof. unfold update_favourites_flow. shrinks. Qed.

#[local] Hint Resolve shrinks_search_city_flow shrinks_add_favourite_flow
  shrinks_list_favourites_flow shrinks_update_favourites_flow : shrinks.

Lemma shrinks_dispatch (choice : string) :
  preserves stdin_shrinks (dispatch choice).
Proof. unfold dispatch. shrinks. Qed.

(** A pass of the loop that does not raise has taken at least one line. *)
Lemma menu_iteration_consumes (w w' : World) (again : bool) :
  menu_iteration w = (Ret again, w') ->
  (List.length (stdin w') < List.length (stdin w))%nat.
Proof.
  unfold menu_iteration.
  cbv beta iota delta [bind print_menu print]. rewrite input_unfold.
  cbn [stdin printed].
  destruct (stdin w) as [|line rest]; [discriminate|].
  intros H.
  match type of H with
  | dispatch ?c ?w0 = _ =>
      pose proof (shrinks_dispatch c w0) as Hs; rewrite H in Hs
  end.
  unfold stdin_shrinks in Hs. simpl in *. lia.
Qed.

Lemma main_loop_total (fuel : nat) :
  forall w, (List.length (stdin w) < fuel)%nat ->
            exists outcome, main_loop fuel w = Some outcome.
Proof.
  induction fuel as [|fuel IH]; intros w Hfuel; [lia|].
  cbn [main_loop].
  destruct (menu_iteration w) as [[[]|e] w'] eqn:Hstep; eauto.
  apply IH. apply menu_iteration_consumes in Hstep. lia.
Qed.

(** [main] always comes to an end: on Exit, or on an exception (at the
    latest the [EOFError] of [input] when nothing is left to read). *)
Lemma main_terminates (w : World) : exists outcome, main w = Some outcome.
Proof.
  unfold main. cbv beta iota delta [bind set_favourites print].
  apply main_loop_total. lia.
Qed.

Lemma script_terminates (w : World) :
  exists status w', script w = Some (status, w').
Proof.
  unfold script. destruct (main_terminates w) as ([[[]|[e|e]] w'] & ->); eauto.
Qed.

(** ** No [WeatherError] leaves a flow *)

Lemma quiet_ret {A} (a : A) : quiet (ret a).
Proof. intros w e. discriminate. Qed.

Lemma quiet_raise_builtin {A} (b : py_exn) : quiet (@raise A (Builtin b)).
Proof. intros w e. discriminate. Qed.

Lemma quiet_print (o : output) : quiet (print o).
Proof. intros w e. discriminate. Qed.

Lemma quiet_get_favourites : quiet get_favourites.
Proof. intros w e. discriminate. Qed.

Lemma quiet_set_favourites (l : list pyval) : quiet (set_favourites l).
Proof. intros w e. discriminate. Qed.

Lemma quiet_bind {A B} (m : M A) (k : A -> M B) :
  quiet m -> (forall a, quiet (k a)) -> quiet (bind m k).
Proof.
  intros Hm Hk w e. unfold bind. specialize (Hm w e).
  destruct (m w) as [[a|e'] w1]; simpl in *; [apply Hk | exact Hm].
Qed.

(** A handler on a block that is quiet already. *)
Lemma quiet_try_except {A} (m : M A) (h : exn -> option (M A)) :
  quiet m -> (forall e k, h e = Some k -> quiet k) -> quiet (try_except m h).
Proof.
  intros Hm Hh w e. unfold try_except. specialize (Hm w).
  destruct (m w) as [[a|e'] w1]; simpl in *; [discriminate|].
  destruct (h e') as [k|] eqn:Hk; [exact (Hh e' k Hk w1 e) | apply Hm].
Qed.

(** A handler that takes every [WeatherError], on any block. *)
Lemma quiet_except_weather_error {A} (m : M A) (h : exn -> option (M A)) :
  (forall we, exists k, h (WeatherError we) = Some k) ->
  (forall e k, h e = Some k -> quiet k) ->
  quiet (try_except m h).
Proof.
  intros Hall Hh w e. unfold try_except.
  destruct (m w) as [[a|[b|we]] w1]; simpl; [discriminate| |].
  - destruct (h (Builtin b)) as [k|] eqn:Hk;
      [exact (Hh _ k Hk w1 e) | discriminate].
  - destruct (Hall we) as (k & Hk). rewrite Hk. exact (Hh _ k Hk w1 e).
Qed.

Lemma quiet_input (prompt : string) : quiet (input prompt).
Proof.
  intros w e. rewrite input_unfold. destruct (stdin w); discriminate.
Qed.

Lemma quiet_int (s : string) : quiet (lift (int s)).
Proof.
  intros w e. unfold lift. simpl.
  destruct (int s) as [z|e'] eqn:E; [discriminate|].
  apply int_raises in E. subst e'. discriminate.
Qed.

Create HintDb quiet.
#[local] Hint Resolve quiet_ret quiet_raise_builtin quiet_print
  quiet_get_favourites quiet_set_favourites quiet_input quiet_int : quiet.

(** Walks through a computation; a [try] passes either because its handler
    takes every [WeatherError] or because its block is quiet. *)
Ltac handler_cases :=
  let e := fresh "e" in
  let k := fresh "k" in
  let H := fresh "H" in
  intros e k H;
  repeat match type of H with
         | context [match ?x with _ => _ end] => destruct x
         end;
  try discriminate; injection H as <-.

Ltac quiet :=
  repeat
    (cbv beta zeta;
     match goal with
     | |- quiet (bind _ _) => apply quiet_bind; [|intro]
     | |- quiet (try_except _ _) =>
         first [ apply quiet_except_weather_error;
                 [intro; eexists; reflexivity | handler_cases]
               | apply quiet_try_except; [|handler_cases] ]
     | |- quiet (if ?b then _ else _) => destruct b
     | |- quiet (match ?x with _ => _ end) => destruct x
     | |- _ => solve [auto with quiet]
     end).

Lemma quiet_print_weather (info : weather_info) : quiet (print_weather info).
Proof. unfold print_weather. quiet. Qed.

Lemma quiet_prompt_city_name : quiet prompt_city_name.
Proof. unfold prompt_city_name. quiet. Qed.

Lemma quiet_lookup_or (city : pyval) (h : weather_error -> M unit) :
  (forall e, quiet (h e)) -> quiet (lookup_or city h).
Proof. intros Hh. unfold lookup_or. quiet. Qed.

Lemma quiet_favourites_append (x : pyval) : quiet (favourites_append x).
Proof. unfold favourites_append. quiet. Qed.

Lemma quiet_favourites_pop (i : Z) : quiet (favourites_pop i).
Proof. unfold favourites_pop. quiet. Qed.

#[local] Hint Resolve quiet_print_weather quiet_prompt_city_name
  quiet_favourites_append quiet_favourites_pop : quiet.
#[local] Hint Extern 2 (quiet (lookup_or _ _)) =>
  apply quiet_lookup_or; intro : quiet.

Lemma quiet_search_city_flow : quiet search_city_flow.
Proof. unfold search_city_flow. quiet. Qed.

Lemma quiet_add_favourite_flow : quiet add_favourite_flow.
Proof. unfold add_favourite_flow. quiet. Qed.

Lemma quiet_list_loop (l : list pyval) (idx : Z) : quiet (list_loop idx l).
Proof.
  revert idx. induction l as [|city rest IH]; intros idx; cbn [list_loop];
    quiet.
Qed.

Lemma quiet_print_numbered (l : list pyval) (idx : Z) :
  quiet (print_numbered idx l).
Proof.
  revert idx. induction l as [|city rest IH]; intros idx;
    cbn [print_numbered]; quiet.
Qed.

#[local] Hint Resolve quiet_list_loop quiet_print_numbered : quiet.

Lemma quiet_list_favourites_flow : quiet list_favourites_flow.
Proof. unfold list_favourites_flow. quiet. Qed.

Lemma quiet_update_replacement : quiet update_replacement.
Proof. unfold update_replacement. quiet. Qed.

#[local] Hint Resolve quiet_update_replacement : quiet.

Lemma quiet_update_favourites_flow : quiet update_favourites_flow.
Proof. unfold update_favourites_flow. quiet. Qed.

#[local] Hint Resolve quiet_search_city_flow quiet_add_favourite_flow
  quiet_list_favourites_flow quiet_update_favourites_flow : quiet.

Lemma quiet_menu_iteration : quiet menu_iteration.
Proof. unfold menu_iteration, dispatch, print_menu. quiet. Qed.

Lemma main_loop_quiet (fuel : nat) (w w' : World) (e : weather_error) :
  main_loop fuel w <> Some (Raise (WeatherError e), w').
Proof.
  revert w. induction fuel as [|fuel IH]; intros w; cbn [main_loop];
    [discriminate|].
  pose proof (quiet_menu_iteration w e) as Hq.
  destruct (menu_iteration w) as [[[]|e'] w1]; simpl in Hq.
  - apply IH.
  - discriminate.
  - intros H. injection H as -> _. apply Hq. reflexivity.
Qed.

(** The handler of the entry point is never taken: no run prints the
    fatal-error line, and the status is 1 only through an exception that is
    not a [WeatherError]. *)
Lemma script_exit_status (w : World) :
  exists w', (script w = Some (0, w') /\ exists w0, main w = Some (Ret tt, w0))
             \/ (script w = Some (1, w') /\
                 exists b, main w = Some (Raise (Builtin b), w')).
Proof.
  unfold script. destruct (main_terminates w) as (outcome & Hmain).
  rewrite Hmain. destruct outcome as [[[]|[b|e]] w'].
  - exists w'. left. eauto.
  - exists w'. right. eauto.
  - exfalso. revert Hmain. unfold main.
    cbv beta iota delta [bind set_favourites print]. apply main_loop_quiet.
Qed.

(** * Further properties of the code *)

(** ** Requests of a lookup *)

(** X1: with a key set, a lookup sends exactly one request, whatever comes
    back (failure, any status, any body): the base URL, the city as [q], the
    key as [appid], metric units, a timeout of 5.  Nothing is retried, and
    the console and the store are not touched. *)
Theorem lookup_sends_one_request (city : pyval) (w : World) (key : string) :
  credential (environ w) = Some key ->
  let w' := snd (get_weather city w) in
  sent w' = (sent w ++ [mkRequest API_BASE_URL city key "metric" 5])%list /\
  stdin w' = stdin w /\ stdout w' = stdout w /\
  favourites w' = favourites w.
Proof.
  intros Hkey. rewrite get_weather_unfold, Hkey. repeat split.
Qed.

Lemma lookup_sends_one_request_witness :
  let w := world with_key html_page [] [VStr "Lagos"] in
  sent (snd (get_weather (VStr "Oslo") w)) =
  [mkRequest API_BASE_URL (VStr "Oslo") "k3y" "metric" 5].
Proof.
  intros w.
  exact (proj1 (lookup_sends_one_request (VStr "Oslo") w "k3y" eq_refl)).
Defined.

(** X2: with a key set, the status of the answer decides before the body is
    looked at: 404 gives the city-not-found error with the requested name,
    any other status than 200 gives the status error with the code and the
    raw text, even when the body is not JSON; a request that fails gives the
    network error with its cause. *)
Theorem lookup_status_errors (city : pyval) (w : World) (key : string) :
  credential (environ w) = Some key ->
  let outcome := fst (get_weather city w) in
  let answer := network w (List.length (sent w)) (lookup_request city key) in
  (forall cause, answer = Fails cause ->
                 outcome = Raise (WeatherError (NetworkError cause))) /\
  (forall resp, answer = Answers resp -> status_code resp = 404 ->
                outcome = Raise (WeatherError (CityNotFound city))) /\
  (forall resp, answer = Answers resp ->
                status_code resp <> 404 -> status_code resp <> 200 ->
                outcome = Raise (WeatherError
                                   (ApiStatus (status_code resp) (text resp)))).
Proof.
  intros Hkey outcome answer. subst outcome answer.
  rewrite get_weather_unfold, Hkey. cbn [fst].
  repeat split.
  - intros cause ->. reflexivity.
  - intros resp -> H404. unfold handle_response. rewrite H404. reflexivity.
  - intros resp -> H404 H200. unfold handle_response.
    apply Z.eqb_neq in H404, H200. rewrite H404, H200. reflexivity.
Qed.

Lemma lookup_status_errors_witness :
  let w := world with_key
                 (fun _ _ => Answers (mkResponse 503 "busy" None)) [] [] in
  fst (get_weather (VStr "Oslo") w) = Raise (WeatherError (ApiStatus 503 "busy")).
Proof.
  intros w.
  refine (proj2 (proj2 (lookup_status_errors (VStr "Oslo") w "k3y" eq_refl))
                (mkResponse 503 "busy" None) eq_refl _ _); discriminate.
Defined.

(** ** Bodies that cannot make the lookup crash *)

Lemma build_simplified_no_attribute_error (city data : pyval) :
  nested_objects data = true ->
  build_simplified city data <> Raise (Builtin AttributeError).
Proof.
  intros Hn.
  destruct data; try (unfold build_simplified; simpl; discriminate).
  cbn [nested_objects] in Hn. apply andb_true_iff in Hn.
  destruct Hn as [Hsys Hwind]. unfold object_or_absent in Hsys, Hwind.
  unfold build_simplified, rbind. rewrite !get_dict.
  destruct (dict_lookup "sys" d) as [[]|]; try discriminate;
    destruct (dict_lookup "wind" d) as [[]|]; try discriminate;
    rewrite ?get_dict;
    repeat match goal with
           | |- context [match getitem ?a ?b with _ => _ end] =>
               let E := fresh "E" in destruct (getitem a b) eqn:E
           | |- context [if truthy ?x then _ else _] =>
               let E := fresh "E" in destruct (truthy x) eqn:E
           end;
    try discriminate;
    match goal with
    | E : getitem _ (VStr _) = Raise _ |- _ =>
        apply getitem_str_raises in E; destruct E as [-> | ->]; discriminate
    | E : getitem _ (VInt 0) = Raise _, Ht : truthy _ = true |- _ =>
        apply (getitem_first_raises _ _ Ht) in E;
        destruct E as [-> | ->]; discriminate
    end.
Qed.

(** X3: when the body of the answer decodes and its [sys] and [wind] are
    objects or absent, the lookup ends in a record or in a [WeatherError],
    whatever else the body holds: no built-in exception leaves it. *)
Theorem nested_objects_never_escape
    (city : pyval) (w : World) (key : string) (resp : response) (data : pyval) :
  credential (environ w) = Some key ->
  network w (List.length (sent w)) (lookup_request city key) = Answers resp ->
  json resp = Some data ->
  nested_objects data = true ->
  (exists info, fst (get_weather city w) = Ret info) \/
  (exists e, fst (get_weather city w) = Raise (WeatherError e)).
Proof.
  intros Hkey Hnet Hjson Hn. rewrite get_weather_unfold, Hkey, Hnet. cbn [fst].
  unfold handle_response.
  destruct (status_code resp =? 404); [eauto|].
  destruct (status_code resp =? 200); cbn [negb]; [|eauto].
  rewrite Hjson.
  pose proof (build_simplified_no_attribute_error city data Hn) as Hno.
  destruct (build_simplified city data) as [info|e] eqn:Hb; [eauto|].
  destruct (build_simplified_raises _ _ _ Hb) as [-> | [-> | [k ->]]];
    [contradiction | eauto | eauto].
Qed.

Lemma nested_objects_never_escape_witness :
  let w := world with_key
             (always_answers (VDict [("main", VStr "hot"); ("sys", VDict [])]))
             [] [] in
  (exists info, fst (get_weather (VStr "Oslo") w) = Ret info) \/
  (exists e, fst (get_weather (VStr "Oslo") w) = Raise (WeatherError e)).
Proof.
  intros w.
  exact (nested_objects_never_escape (VStr "Oslo") w "k3y" _ _
           eq_refl eq_refl eq_refl eq_refl).
Defined.

(** ** Rendering *)

(** X4: on a record whose city is not a list, [print_weather] returns
    exactly when the record renders (a city that takes the country suffix
    and has a length, a description that is a [str]), after writing its
    eight lines; on any other such record it raises [TypeError] or
    [AttributeError].  Either way it only writes to the console. *)
Theorem print_weather_outcome (info : weather_info) (w : World) :
  is_list (info_city info) = false ->
  let w' := snd (print_weather info w) in
  match fst (print_weather info w) with
  | Ret _ => renders info = true /\
             stdout w' = (stdout w ++ weather_block info)%list
  | Raise e => renders info = false /\
               (e = Builtin TypeError \/ e = Builtin AttributeError)
  end /\
  stdin w' = stdin w /\ sent w' = sent w /\ favourites w' = favourites w.
Proof.
  unfold print_weather, renders, weather_block, is_list.
  destruct (truthy (info_country info)), (info_city info),
    (info_description info); intros Hcity; try discriminate Hcity;
    cbv beta iota zeta delta [bind print ret raise fst snd printed stdin sent
                              favourites stdout andb];
    rewrite <- ?app_assoc; repeat split; auto.
Qed.

Lemma print_weather_outcome_witness :
  let info := mkInfo (VStr "Paris") (VStr "FR") (VInt 21) (VInt 20) VNone
                     (VInt 40) (VFloat 0%float) in
  let w := world with_key no_network ["5"] [VStr "Paris"] in
  let w' := snd (print_weather info w) in
  match fst (print_weather info w) with
  | Ret _ => renders info = true /\
             stdout w' = (stdout w ++ weather_block info)%list
  | Raise e => renders info = false /\
               (e = Builtin TypeError \/ e = Builtin AttributeError)
  end /\
  stdin w' = stdin w /\ sent w' = sent w /\ favourites w' = favourites w.
Proof.
  intros info w. exact (print_weather_outcome info w eq_refl).
Defined.

(** ** The name handed to the flows *)

Lemma lstrip_chars_split (l : list ascii) :
  exists spaces,
    l = (spaces ++ lstrip_chars l)%list /\ forallb is_space spaces = true.
Proof.
  induction l as [|c l IH]; [exists []; split; reflexivity|].
  cbn [lstrip_chars]. destruct (is_space c) eqn:Hc.
  - destruct IH as (spaces & Hl & Hs). exists (c :: spaces). split.
    + cbn [app]. rewrite <- Hl. reflexivity.
    + cbn [forallb]. rewrite Hc, Hs. reflexivity.
  - exists []. split; reflexivity.
Qed.

Lemma lstrip_chars_clean (l : list ascii) : starts_clean (lstrip_chars l) = true.
Proof.
  induction l as [|c l IH]; [reflexivity|].
  cbn [lstrip_chars]. destruct (is_space c) eqn:Hc; [exact IH|].
  cbn [starts_clean]. rewrite Hc. reflexivity.
Qed.

Lemma lstrip_chars_of_clean (l : list ascii) :
  starts_clean l = true -> lstrip_chars l = l.
Proof.
  destruct l as [|c l]; [reflexivity|]. cbn [starts_clean lstrip_chars].
  destruct (is_space c); [discriminate|reflexivity].
Qed.

Lemma lstrip_chars_spaces (l : list ascii) :
  forallb is_space l = true -> lstrip_chars l = [].
Proof.
  induction l as [|c l IH]; [reflexivity|]. cbn [forallb lstrip_chars].
  intros H. apply andb_true_iff in H. destruct H as [-> H]. exact (IH H).
Qed.

(** What is left after stripping the end of a list that starts clean still
    starts clean. *)
Lemma rstrip_keeps_clean (l : list ascii) :
  starts_clean l = true ->
  starts_clean (rev (lstrip_chars (rev l))) = true.
Proof.
  intros Hl. destruct (lstrip_chars_split (rev l)) as (spaces & Hsplit & _).
  apply (f_equal (@rev ascii)) in Hsplit.
  rewrite rev_involutive, rev_app_distr in Hsplit.
  destruct (rev (lstrip_chars (rev l))) as [|c t]; [reflexivity|].
  rewrite Hsplit in Hl. exact Hl.
Qed.

Lemma strip_chars (s : string) :
  list_ascii_of_string (strip s) =
  rev (lstrip_chars (rev (lstrip_chars (list_ascii_of_string s)))).
Proof. unfold strip. apply list_ascii_of_string_of_list_ascii. Qed.

Lemma strip_idempotent (s : string) : strip (strip s) = strip s.
Proof.
  unfold strip at 1. rewrite strip_chars.
  set (l := lstrip_chars (list_ascii_of_string s)).
  rewrite (lstrip_chars_of_clean (rev (lstrip_chars (rev l))))
    by (apply rstrip_keeps_clean, lstrip_chars_clean).
  rewrite rev_involutive.
  rewrite (lstrip_chars_of_clean (lstrip_chars (rev l)))
    by apply lstrip_chars_clean.
  reflexivity.
Qed.

Lemma strip_spaces (s : string) :
  forallb is_space (list_ascii_of_string s) = true -> strip s = "".
Proof.
  intros H. unfold strip. rewrite (lstrip_chars_spaces _ H). reflexivity.
Qed.

Lemma strip_empty_spaces (s : string) :
  strip s = "" -> forallb is_space (list_ascii_of_string s) = true.
Proof.
  intros H. apply (f_equal list_ascii_of_string) in H.
  rewrite strip_chars in H. cbn [list_ascii_of_string] in H.
  destruct (lstrip_chars_split (list_ascii_of_string s))
    as (spaces & Hsplit & Hspaces).
  set (l := lstrip_chars (list_ascii_of_string s)) in *.
  assert (Hrev : lstrip_chars (rev l) = [])
    by (apply (f_equal (@rev ascii)) in H; rewrite rev_involutive in H;
        exact H).
  destruct (lstrip_chars_split (rev l)) as (spaces' & Hsplit' & Hspaces').
  rewrite Hrev, app_nil_r in Hsplit'.
  assert (Hl : l = []).
  { pose proof (lstrip_chars_clean (list_ascii_of_string s)) as Hclean.
    fold l in Hclean. destruct l as [|c t]; [reflexivity|].
    cbn [starts_clean] in Hclean.
    assert (Hin : In c spaces')
      by (rewrite <- Hsplit'; apply in_rev; rewrite rev_involutive; left;
          reflexivity).
    rewrite forallb_forall in Hspaces'. rewrite (Hspaces' c Hin) in Hclean.
    discriminate. }
  rewrite Hsplit, Hl, app_nil_r. exact Hspaces.
Qed.

(** X5: [prompt_city_name] reads one line.  On a line of ASCII text it
    returns [None] exactly when the line holds nothing but whitespace;
    otherwise it returns the line without its leading and trailing
    whitespace, a name that is not empty and that stripping again leaves as
    it is. *)
Theorem prompt_city_name_trimmed
    (w : World) (line : string) (rest : list string) :
  stdin w = line :: rest ->
  is_ascii line = true ->
  stdin (snd (prompt_city_name w)) = rest /\
  (forallb is_space (list_ascii_of_string line) = true ->
   fst (prompt_city_name w) = Ret None) /\
  (forallb is_space (list_ascii_of_string line) = false ->
   fst (prompt_city_name w) = Ret (Some (strip line)) /\
   strip line <> "" /\ strip (strip line) = strip line).
Proof.
  intros Hin _. rewrite prompt_city_name_unfold, Hin. cbn [fst snd].
  split; [reflexivity|]. split.
  - intros Hs. rewrite (strip_spaces _ Hs). reflexivity.
  - intros Hs.
    assert (Hne : strip line <> "").
    { intros E. apply strip_empty_spaces in E. rewrite E in Hs. discriminate. }
    apply String.eqb_neq in Hne. rewrite Hne.
    apply String.eqb_neq in Hne.
    split; [reflexivity|]. split; [exact Hne | apply strip_idempotent].
Qed.

Lemma prompt_city_name_trimmed_witness :
  let w := world [] no_network ["  New York " ; "5"] [] in
  fst (prompt_city_name w) = Ret (Some "New York") /\
  stdin (snd (prompt_city_name w)) = ["5"].
Proof.
  intros w.
  destruct (prompt_city_name_trimmed w "  New York " ["5"] eq_refl eq_refl)
    as (Hrest & _ & Hsome).
  split; [exact (proj1 (Hsome eq_refl)) | exact Hrest].
Defined.

(** ** Relations kept by the flows and by the menu loop *)

(** Walks through a computation for a relation with the given proofs of
    reflexivity and transitivity. *)
Ltac walk refl trans :=
  repeat
    (cbv beta zeta;
     match goal with
     | |- preserves _ (bind _ _) => apply (preserves_bind _ trans); [|intro]
     | |- preserves _ (try_except _ _) =>
         apply (preserves_try_except _ trans); [|handler_cases]
     | |- preserves _ (ret _) => apply (preserves_ret _ refl)
     | |- preserves _ (raise _) => apply (preserves_raise _ refl)
     | |- preserves _ (lift _) => apply (preserves_lift _ refl)
     | |- preserves _ (if ?b then _ else _) => destruct b
     | |- preserves _ (match ?x with _ => _ end) => destruct x
     | |- _ => solve [auto with frames]
     end).

Create HintDb frames.

Lemma main_loop_preserves (R : World -> World -> Prop) :
  (forall a b c, R a b -> R b c -> R a c) ->
  preserves R menu_iteration ->
  forall fuel w outcome w',
    main_loop fuel w = Some (outcome, w') -> R w w'.
Proof.
  intros trans Hstep fuel.
  induction fuel as [|fuel IH]; intros w outcome w' H; [discriminate|].
  cbn [main_loop] in H. specialize (Hstep w).
  destruct (menu_iteration w) as [[[]|e] w1]; cbn [snd] in Hstep.
  - exact (trans _ _ _ Hstep (IH _ _ _ H)).
  - injection H as _ <-. exact Hstep.
  - injection H as _ <-. exact Hstep.
Qed.

(** *** The store under the search and list flows *)

Lemma same_store_refl (w : World) : same_store w w.
Proof. reflexivity. Qed.

Lemma same_store_trans (a b c : World) :
  same_store a b -> same_store b c -> same_store a c.
Proof. unfold same_store. congruence. Qed.

Lemma same_store_print (o : output) : preserves same_store (print o).
Proof. intros w. reflexivity. Qed.

Lemma same_store_input (prompt : string) : preserves same_store (input prompt).
Proof.
  intros w. rewrite input_unfold. destruct (stdin w); reflexivity.
Qed.

Lemma same_store_get_favourites : preserves same_store get_favourites.
Proof. intros w. reflexivity. Qed.

Lemma same_store_get_weather (city : pyval) :
  preserves same_store (get_weather city).
Proof.
  intros w. unfold same_store.
  destruct (get_weather_frame city w) as (_ & _ & _ & _ & -> & _). reflexivity.
Qed.

#[local] Hint Resolve same_store_print same_store_input
  same_store_get_favourites same_store_get_weather : frames.

Lemma same_store_search_city_flow : preserves same_store search_city_flow.
Proof.
  unfold search_city_flow, prompt_city_name, lookup_or, print_weather.
  walk same_store_refl same_store_trans.
Qed.

Lemma same_store_list_loop (l : list pyval) (idx : Z) :
  preserves same_store (list_loop idx l).
Proof.
  revert idx. induction l as [|city rest IH]; intros idx; cbn [list_loop];
    unfold print_weather; walk same_store_refl same_store_trans.
Qed.

#[local] Hint Resolve same_store_list_loop : frames.

Lemma same_store_list_favourites_flow :
  preserves same_store list_favourites_flow.
Proof.
  unfold list_favourites_flow. walk same_store_refl same_store_trans.
Qed.

Lemma print_weather_keeps_input (info : weather_info) (w : World) :
  stdin (snd (print_weather info w)) = stdin w.
Proof.
  unfold print_weather.
  destruct (truthy (info_country info)), (info_city info),
    (info_description info); reflexivity.
Qed.

Lemma list_loop_reads_nothing (l : list pyval) (idx : Z) (w : World) :
  stdin (snd (list_loop idx l w)) = stdin w.
Proof.
  revert idx w. induction l as [|city rest IH]; intros idx w; [reflexivity|].
  cbn [list_loop]. unfold bind at 1, print at 1. unfold bind at 1.
  rewrite list_entry_unfold.
  pose proof (get_weather_frame city (printed [EntryHeader idx city] w)) as Hf.
  cbv zeta in Hf. destruct Hf as (_ & _ & Hin & _).
  destruct (get_weather city (printed [EntryHeader idx city] w))
    as [[info|[e|e]] w1]; cbn [snd] in *.
  - pose proof (print_weather_keeps_input info w1) as Hin'.
    destruct (print_weather info w1) as [[[]|[e|e]] w2]; cbn [snd] in *;
      rewrite ?IH; cbn [stdin printed] in *; congruence.
  - exact Hin.
  - rewrite IH. exact Hin.
Qed.

(** X6: the search flow never changes the store and the list flow reads no
    input, whatever is typed, whatever the API answers and however the flow
    ends (also when an exception leaves it); and the list flow never changes
    a store none of whose entries is a list. *)
Theorem search_and_list_keep_store (w : World) :
  favourites (snd (search_city_flow w)) = favourites w /\
  stdin (snd (list_favourites_flow w)) = stdin w /\
  (no_list_entry (favourites w) = true ->
   favourites (snd (list_favourites_flow w)) = favourites w).
Proof.
  split; [exact (same_store_search_city_flow w)|].
  split; [|intros _; exact (same_store_list_favourites_flow w)].
  unfold list_favourites_flow. unfold bind at 1, get_favourites at 1.
  destruct (negb (truthy (VList (favourites w)))); [reflexivity|].
  unfold bind at 1, print at 1. unfold bind at 1, print at 1.
  rewrite list_loop_reads_nothing. reflexivity.
Qed.

Lemma search_and_list_keep_store_witness :
  let w := world with_key page_unless_paris ["5"]
                 [VStr "Atlantis"; VStr "Paris"] in
  favourites (snd (list_favourites_flow w)) = [VStr "Atlantis"; VStr "Paris"].
Proof.
  intros w. exact (proj2 (proj2 (search_and_list_keep_store w)) eq_refl).
Defined.

(** *** Requests over a whole run *)

Lemma disciplined_refl (w : World) : disciplined w w.
Proof. unfold disciplined. auto. Qed.

Lemma disciplined_trans (a b c : World) :
  disciplined a b -> disciplined b c -> disciplined a c.
Proof.
  unfold disciplined. intros (He & Hn & Hs) (He' & Hn' & Hs').
  rewrite He in He', Hs'. rewrite Hn in Hn'. auto.
Qed.

Lemma disciplined_print (o : output) : preserves disciplined (print o).
Proof. intros w. unfold disciplined. simpl. auto. Qed.

Lemma disciplined_input (prompt : string) :
  preserves disciplined (input prompt).
Proof.
  intros w. rewrite input_unfold. unfold disciplined.
  destruct (stdin w); simpl; auto.
Qed.

Lemma disciplined_get_favourites : preserves disciplined get_favourites.
Proof. intros w. apply disciplined_refl. Qed.

Lemma disciplined_set_favourites (l : list pyval) :
  preserves disciplined (set_favourites l).
Proof. intros w. unfold disciplined. simpl. auto. Qed.

Lemma disciplined_get_weather (city : pyval) :
  preserves disciplined (get_weather city).
Proof.
  intros w. rewrite get_weather_unfold. unfold disciplined.
  destruct (credential (environ w)) as [key|] eqn:Hkey; cbn [snd]; [|auto].
  cbn [environ network sent record_sent]. repeat split.
  intros Hall. apply Forall_app. split; [exact Hall|].
  constructor; [|constructor]. unfold request_ok. rewrite Hkey.
  repeat split.
Qed.

#[local] Hint Resolve disciplined_print disciplined_input
  disciplined_get_favourites disciplined_set_favourites
  disciplined_get_weather : frames.

Lemma disciplined_list_loop (l : list pyval) (idx : Z) :
  preserves disciplined (list_loop idx l).
Proof.
  revert idx. induction l as [|city rest IH]; intros idx; cbn [list_loop];
    unfold print_weather; walk disciplined_refl disciplined_trans.
Qed.

Lemma disciplined_print_numbered (l : list pyval) (idx : Z) :
  preserves disciplined (print_numbered idx l).
Proof.
  revert idx. induction l as [|city rest IH]; intros idx;
    cbn [print_numbered]; walk disciplined_refl disciplined_trans.
Qed.

#[local] Hint Resolve disciplined_list_loop disciplined_print_numbered
  : frames.

Lemma disciplined_menu_iteration : preserves disciplined menu_iteration.
Proof.
  unfold menu_iteration, dispatch, print_menu, search_city_flow,
    add_favourite_flow, list_favourites_flow, update_favourites_flow,
    update_replacement, prompt_city_name, lookup_or, print_weather,
    favourites_append, favourites_pop.
  walk disciplined_refl disciplined_trans.
Qed.

(** X7: over a whole run of [main] that starts with nothing sent, every
    request that leaves the program is one built by [get_weather]: the base
    URL, metric units, a timeout of 5 and the key of the environment.  In
    particular no request is ever sent while the key is missing. *)
Theorem every_request_carries_the_key (w : World) :
  sent w = [] ->
  exists outcome w',
    main w = Some (outcome, w') /\
    Forall (request_ok (environ w)) (sent w') /\
    (credential (environ w) = None -> sent w' = []).
Proof.
  intros Hsent.
  destruct (main_terminates w) as ([outcome w'] & Hmain).
  exists outcome, w'. split; [exact Hmain|].
  assert (Hall : Forall (request_ok (environ w)) (sent w')).
  { revert Hmain. unfold main.
    cbv beta iota delta [bind set_favourites print]. intros Hloop.
    apply (main_loop_preserves disciplined disciplined_trans
             disciplined_menu_iteration) in Hloop.
    destruct Hloop as (_ & _ & Hs). apply Hs.
    cbn [sent printed with_favourites]. rewrite Hsent. constructor. }
  split; [exact Hall|].
  intros Hnone. destruct (sent w') as [|r rs]; [reflexivity|].
  inversion Hall as [|? ? (_ & _ & _ & Hkey) _]. congruence.
Qed.

Lemma every_request_carries_the_key_witness :
  let w := world with_key only_paris ["1"; "Paris"; "2"; "Oslo"; "5"] [] in
  exists outcome w',
    main w = Some (outcome, w') /\
    Forall (request_ok (environ w)) (sent w') /\
    (credential (environ w) = None -> sent w' = []).
Proof. intros w. exact (every_request_carries_the_key w eq_refl). Defined.

(** *** Capacity over a whole run *)

Lemma within_capacity_refl (w : World) : within_capacity w w.
Proof. unfold within_capacity. auto. Qed.

Lemma within_capacity_trans (a b c : World) :
  within_capacity a b -> within_capacity b c -> within_capacity a c.
Proof. unfold within_capacity. auto. Qed.

Lemma same_store_within_capacity {A} (m : M A) :
  preserves same_store m -> preserves within_capacity m.
Proof.
  intros Hm w. unfold within_capacity. rewrite (Hm w). auto.
Qed.

Lemma within_capacity_menu_iteration : preserves within_capacity menu_iteration.
Proof.
  pose proof add_favourite_flow_capacity as Hadd.
  pose proof update_favourites_flow_capacity as Hupdate.
  pose proof (same_store_within_capacity _ same_store_search_city_flow)
    as Hsearch.
  pose proof (same_store_within_capacity _ same_store_list_favourites_flow)
    as Hlist.
  assert (Hprint : forall o, preserves within_capacity (print o))
    by (intro o; apply same_store_within_capacity, same_store_print).
  assert (Hinput : forall p, preserves within_capacity (input p))
    by (intro p; apply same_store_within_capacity, same_store_input).
  unfold menu_iteration, dispatch, print_menu.
  walk within_capacity_refl within_capacity_trans.
Qed.

(** X8: every run of [main] comes to an end, and the store it leaves holds
    at most three entries, whatever is typed and whatever the API answers,
    also when the run ends on an exception. *)
Theorem main_keeps_capacity (w : World) :
  exists outcome w',
    main w = Some (outcome, w') /\ len (favourites w') <= 3.
Proof.
  destruct (main_terminates w) as ([outcome w'] & Hmain).
  exists outcome, w'. split; [exact Hmain|].
  revert Hmain. unfold main.
  cbv beta iota delta [bind set_favourites print]. intros Hloop.
  apply (main_loop_preserves within_capacity within_capacity_trans
           within_capacity_menu_iteration) in Hloop.
  apply Hloop. unfold len. simpl. lia.
Qed.

(** ** What the add and update flows do to the store *)

(** X9: on ASCII input the add flow either leaves the store as it was or
    appends one name at its end.  A name is appended only when the store
    held fewer than three entries, the typed name was not empty and not in
    the store, and the lookup of the typed name returned a record; the name
    appended is the city of that record. *)
Theorem add_flow_effect (w : World) :
  ascii_input w = true ->
  let w' := snd (add_favourite_flow w) in
  favourites w' = favourites w \/
  exists line rest info,
    stdin w = line :: rest /\ len (favourites w) < 3 /\ strip line <> "" /\
    str_in (strip line) (favourites w) = false /\
    fst (get_weather (VStr (strip line)) w) = Ret info /\
    favourites w' = (favourites w ++ [info_city info])%list /\
    stdout w' = (stdout w ++ [Prompt city_prompt; Added (info_city info)])%list.
Proof.
  intros _. rewrite add_favourite_flow_unfold.
  destruct (3 <=? len (favourites w)) eqn:Hfull; [left; reflexivity|].
  apply Z.leb_gt in Hfull.
  destruct (stdin w) as [|line rest] eqn:Hin; [left; reflexivity|]. cbv zeta.
  destruct (strip line =? "")%string eqn:Hempty; [left; reflexivity|].
  apply String.eqb_neq in Hempty.
  destruct (str_in (strip line) (favourites w)) eqn:Hdup; [left; reflexivity|].
  set (w1 := after_input city_prompt rest w).
  pose proof (get_weather_frame (VStr (strip line)) w1) as Hf.
  pose proof (get_weather_fst_frame (VStr (strip line)) w w1
                eq_refl eq_refl eq_refl) as Hfst.
  cbv zeta in Hf. destruct Hf as (_ & _ & _ & Hout & Hfav & _).
  unfold validate_and_append.
  destruct (get_weather (VStr (strip line)) w1) as [[info|[e|e]] w2];
    cbn [fst snd] in *; [|left; exact Hfav|left; exact Hfav].
  right. exists line, rest, info.
  repeat (split; [first [reflexivity | assumption | symmetry; assumption]|]).
  cbn [favourites stdout printed with_favourites]. rewrite Hfav, Hout.
  split; [reflexivity|].
  unfold w1. cbn [stdout after_input with_stdin printed].
  rewrite <- app_assoc. reflexivity.
Qed.

Lemma add_flow_effect_witness :
  let w := world with_key echo [" Oslo "; "5"] [VStr "Paris"] in
  let w' := snd (add_favourite_flow w) in
  favourites w' = favourites w \/
  exists line rest info,
    stdin w = line :: rest /\ len (favourites w) < 3 /\ strip line <> "" /\
    str_in (strip line) (favourites w) = false /\
    fst (get_weather (VStr (strip line)) w) = Ret info /\
    favourites w' = (favourites w ++ [info_city info])%list /\
    stdout w' = (stdout w ++ [Prompt city_prompt; Added (info_city info)])%list.
Proof. intros w. exact (add_flow_effect w eq_refl). Defined.

(** X10: an update whose replacement goes through swaps one entry: after a
    valid choice, a replacement name that is not empty and not among the
    remaining entries, and a lookup of it that returns a record, the store
    is the old one without the chosen entry, with the city of the record
    appended at the end, and is as long as before.  The two lines typed are
    ASCII text, the choice of at most 4300 characters. *)
Theorem update_replaces_entry
    (w : World) (line line2 : string) (rest : list string) (choice : Z)
    (info : weather_info) :
  stdin w = line :: line2 :: rest ->
  short_ascii line = true ->
  is_ascii line2 = true ->
  int (strip line) = Ret choice ->
  1 <= choice <= len (favourites w) ->
  let remaining := remove_nth (Z.to_nat (choice - 1)) (favourites w) in
  strip line2 <> "" ->
  str_in (strip line2) remaining = false ->
  fst (get_weather (VStr (strip line2)) w) = Ret info ->
  let w' := snd (update_favourites_flow w) in
  fst (update_favourites_flow w) = Ret tt /\
  favourites w' = (remaining ++ [info_city info])%list /\
  len (favourites w') = len (favourites w) /\ stdin w' = rest.
Proof.
  intros Hin _ _ Hint Hrange remaining Hne2 Hdup Hlook w'.
  assert (Hne : favourites w <> [])
    by (intros E; rewrite E in Hrange; unfold len in Hrange; simpl in Hrange;
        lia).
  destruct (seq_index_split (favourites w) (choice - 1))
    as (before & x & after & Hl & Hlen & Hx & Hrm); [lia|].
  assert (Hshort : len remaining = len (favourites w) - 1).
  { unfold remaining. rewrite Hrm, Hl. unfold len. rewrite !length_app.
    simpl. lia. }
  subst w'.
  rewrite (update_favourites_flow_unfold w line (line2 :: rest) Hne Hin), Hint.
  replace ((1 <=? choice) && (choice <=? len (favourites w))) with true
    by (symmetry; apply andb_true_iff; split; apply Z.leb_le; lia).
  cbn [negb]. rewrite Hx. fold remaining.
  rewrite update_replacement_unfold.
  cbn [stdin favourites printed with_favourites after_input with_stdin].
  cbv zeta. apply String.eqb_neq in Hne2. rewrite Hne2, Hdup.
  match goal with
  | |- context [validate_and_append ?c ?w0] =>
      pose proof (get_weather_frame (VStr c) w0) as Hf;
      pose proof (get_weather_fst_frame (VStr c) w w0
                    eq_refl eq_refl eq_refl) as Hfst;
      unfold validate_and_append;
      destruct (get_weather (VStr c) w0) as [[info'|[e|e]] w2]
  end;
    cbn [fst snd] in *; rewrite Hlook in Hfst; try discriminate.
  injection Hfst as ->. cbv zeta in Hf.
  destruct Hf as (_ & _ & Hstdin & _ & Hfav & _).
  cbn [favourites stdin printed with_favourites after_input with_stdin]
    in *.
  rewrite Hfav, Hstdin. repeat split.
  unfold len in *. rewrite length_app. simpl. lia.
Qed.

Lemma update_replaces_entry_witness :
  let w := world with_key echo ["1"; "Berlin"] [VStr "Paris"; VStr "Tokyo"] in
  favourites (snd (update_favourites_flow w)) = [VStr "Tokyo"; VStr "Berlin"].
Proof.
  intros w.
  refine (proj1 (proj2
            (update_replaces_entry w "1" "Berlin" [] 1
               (mkInfo (VStr "Berlin") (VStr "") (VInt 1) (VInt 2)
                       (VStr "N/A") (VInt 3) (VFloat 0%float))
               eq_refl eq_refl eq_refl eq_refl _ _ eq_refl eq_refl))).
  - vm_compute. split; discriminate.
  - discriminate.
Defined.

(** ** When the store stays free of duplicates *)

Lemma str_in_In (city : string) (l : list pyval) :
  str_in city l = true <-> In (VStr city) l.
Proof.
  unfold str_in. rewrite existsb_exists. split.
  - intros (v & Hin & Hv). destruct v; try discriminate.
    apply String.eqb_eq in Hv. subst. exact Hin.
  - intros Hin. exists (VStr city). split; [exact Hin|].
    apply String.eqb_refl.
Qed.

Lemma NoDup_append_new {A} (l : list A) (x : A) :
  NoDup l -> ~ In x l -> NoDup (l ++ [x]).
Proof.
  intros Hl Hx. apply NoDup_rev in Hl.
  rewrite <- (rev_involutive (l ++ [x])), rev_app_distr. apply NoDup_rev.
  simpl. constructor; [|exact Hl]. rewrite <- in_rev. exact Hx.
Qed.

Lemma get_weather_fst_ret_inv (city : pyval) (w : World) (info : weather_info) :
  fst (get_weather city w) = Ret info ->
  exists key resp,
    network w (List.length (sent w)) (lookup_request city key) = Answers resp /\
    handle_response city resp = Ret info.
Proof.
  rewrite get_weather_unfold.
  destruct (credential (environ w)) as [key|]; [|discriminate]. cbn [fst].
  destruct (network w _ _) as [cause|resp] eqn:Hnet; [discriminate|].
  intros H. eauto.
Qed.

Lemma validate_and_append_keeps_nodup (city : string) (w : World) :
  echoes (network w) ->
  str_in city (favourites w) = false ->
  NoDup (favourites w) ->
  NoDup (favourites (snd (validate_and_append city w))).
Proof.
  intros Hecho Hnew Hnd.
  pose proof (validate_and_append_favourites city w) as Hv. cbv zeta in Hv.
  destruct (fst (get_weather (VStr city) w)) as [info|e] eqn:Hg;
    rewrite Hv; [|exact Hnd].
  destruct (get_weather_fst_ret_inv _ _ _ Hg) as (key & resp & Hnet & Hresp).
  rewrite (Hecho _ _ _ _ Hnet Hresp). cbn [q lookup_request].
  apply NoDup_append_new; [exact Hnd|].
  intros Hin. apply str_in_In in Hin. congruence.
Qed.

Lemma add_favourite_flow_keeps_nodup (w : World) :
  echoes (network w) ->
  NoDup (favourites w) ->
  NoDup (favourites (snd (add_favourite_flow w))).
Proof.
  intros Hecho Hnd. rewrite add_favourite_flow_unfold.
  destruct (3 <=? len (favourites w)); [exact Hnd|].
  destruct (stdin w) as [|line rest]; [exact Hnd|]. cbv zeta.
  destruct (strip line =? "")%string; [exact Hnd|].
  destruct (str_in (strip line) (favourites w)) eqn:Hdup; [exact Hnd|].
  apply validate_and_append_keeps_nodup; assumption.
Qed.

Lemma update_favourites_flow_keeps_nodup (w : World) :
  echoes (network w) ->
  NoDup (favourites w) ->
  NoDup (favourites (snd (update_favourites_flow w))).
Proof.
  intros Hecho Hnd.
  destruct (favourites w) as [|f fs] eqn:Hf.
  { rewrite (update_favourites_flow_empty w Hf). constructor. }
  assert (Hne : favourites w <> []) by (rewrite Hf; discriminate).
  destruct (stdin w) as [|line rest] eqn:Hin.
  { rewrite (update_favourites_flow_eof w Hne Hin). simpl.
    rewrite Hf. exact Hnd. }
  rewrite (update_favourites_flow_unfold w line rest Hne Hin).
  destruct (int (strip line)) as [choice|e];
    [|simpl; rewrite Hf; exact Hnd].
  destruct ((1 <=? choice) && (choice <=? len (favourites w))) eqn:Hr;
    cbn [negb]; [|simpl; rewrite Hf; exact Hnd].
  apply andb_true_iff in Hr. destruct Hr as [H1 H2].
  apply Z.leb_le in H1, H2.
  destruct (seq_index_split (favourites w) (choice - 1))
    as (before & x & after & Hl & Hlen & Hx & Hrm); [lia|].
  rewrite Hx, Hrm.
  assert (Hrest : NoDup (before ++ after)%list)
    by (rewrite <- Hf, Hl in Hnd; exact (NoDup_remove_1 _ _ _ Hnd)).
  rewrite update_replacement_unfold.
  cbn [stdin favourites printed with_favourites after_input with_stdin].
  destruct rest as [|line2 rest2]; [exact Hrest|]. cbv zeta.
  destruct (strip line2 =? "")%string; [exact Hrest|].
  destruct (str_in (strip line2) (before ++ after)) eqn:Hdup; [exact Hrest|].
  apply validate_and_append_keeps_nodup; assumption.
Qed.

Lemma disciplined_run_operation (o : operation) :
  preserves disciplined (run_operation o).
Proof.
  destruct o; cbn [run_operation];
    unfold add_favourite_flow, update_favourites_flow, update_replacement,
      prompt_city_name, lookup_or, favourites_append, favourites_pop;
    walk disciplined_refl disciplined_trans.
Qed.

(** X11: duplicates enter the store only through a lookup that renames the
    city.  When the API returns every city under the name it was asked for,
    a store without duplicates stays without duplicates through every
    sequence of add and update operations. *)
Theorem no_duplicates_when_names_are_echoed
    (ops : list operation) (w : World) :
  echoes (network w) ->
  NoDup (favourites w) ->
  NoDup (favourites (run_operations ops w)).
Proof.
  revert w. induction ops as [|o ops IH]; intros w Hecho Hnd; [exact Hnd|].
  cbn [run_operations].
  assert (Hstep : NoDup (favourites (snd (run_operation o w))))
    by (destruct o; [apply add_favourite_flow_keeps_nodup
                    | apply update_favourites_flow_keeps_nodup]; assumption).
  destruct (disciplined_run_operation o w) as (_ & Hnet & _).
  destruct (run_operation o w) as [[[]|e] w1]; cbn [snd] in *;
    [|exact Hstep].
  apply IH; [rewrite Hnet; exact Hecho | exact Hstep].
Qed.

Lemma echo_echoes : echoes echo.
Proof.
  intros n r resp info Hnet Hresp. unfold echo in Hnet.
  injection Hnet as <-. cbv in Hresp. injection Hresp as <-. reflexivity.
Qed.

Lemma no_duplicates_when_names_are_echoed_witness :
  let w := world with_key echo ["paris"; "paris"; "1"; "Oslo"] [] in
  NoDup (favourites (run_operations [Add; Add; Update] w)).
Proof.
  intros w.
  apply (no_duplicates_when_names_are_echoed [Add; Add; Update] w).
  - exact echo_echoes.
  - constructor.
Defined.

(** ** Edges of the flows and of the menu *)

(** X12: on an empty store the list flow and the update flow print their
    notice and return: no line is read, no request is sent, the store stays
    empty. *)
Theorem empty_store_flows (w : World) :
  favourites w = [] ->
  list_favourites_flow w =
  (Ret tt, printed [Text ("You have no favourite cities yet." ++ nl)] w) /\
  update_favourites_flow w =
  (Ret tt,
   printed [Text ("You have no favourite cities to update. "
                  ++ "Use 'Add a City to Favourites' first." ++ nl)] w).
Proof.
  intros Hf. split.
  - unfold list_favourites_flow. unfold bind at 1, get_favourites at 1.
    rewrite Hf. reflexivity.
  - unfold update_favourites_flow. unfold bind at 1, get_favourites at 1.
    rewrite Hf. reflexivity.
Qed.

Lemma empty_store_flows_witness :
  let w := world with_key no_network ["1"] [] in
  stdin (snd (update_favourites_flow w)) = ["1"] /\
  sent (snd (list_favourites_flow w)) = [].
Proof.
  intros w. destruct (empty_store_flows w eq_refl) as (Hlist & Hupdate).
  rewrite Hlist, Hupdate. split; reflexivity.
Defined.

(** X13: on ASCII input the add flow calls the API exactly for a name worth
    validating.  With a key set, fewer than three entries in the store and
    a typed name that is not empty and not already stored, it sends one
    request, for the typed name without its surrounding whitespace; in every
    other case (store full, nothing to read, input cancelled, name already
    stored, no key) it sends nothing. *)
Theorem add_flow_requests (w : World) :
  ascii_input w = true ->
  sent (snd (add_favourite_flow w)) =
  match stdin w, credential (environ w) with
  | line :: _, Some key =>
      if (len (favourites w) <? 3)
         && negb (strip line =? "")%string
         && negb (str_in (strip line) (favourites w))
      then (sent w ++ [lookup_request (VStr (strip line)) key])%list
      else sent w
  | _, _ => sent w
  end.
Proof.
  intros _. rewrite add_favourite_flow_unfold.
  rewrite (Z.ltb_antisym 3 (len (favourites w))).
  destruct (3 <=? len (favourites w)); cbn [negb andb];
    [destruct (stdin w), (credential (environ w)); reflexivity|].
  destruct (stdin w) as [|line rest];
    [destruct (credential (environ w)); reflexivity|]. cbv zeta.
  destruct (strip line =? "")%string; cbn [negb andb];
    [destruct (credential (environ w)); reflexivity|].
  destruct (str_in (strip line) (favourites w)); cbn [negb];
    [destruct (credential (environ w)); reflexivity|].
  unfold validate_and_append. rewrite get_weather_unfold.
  cbn [environ network sent after_input with_stdin printed].
  destruct (credential (environ w)) as [key|]; [|reflexivity].
  destruct (network w (List.length (sent w))
              (lookup_request (VStr (strip line)) key)) as [cause|resp];
    [reflexivity|].
  destruct (handle_response (VStr (strip line)) resp) as [info|[e|e]];
    reflexivity.
Qed.

Lemma add_flow_requests_witness :
  let w := world with_key only_paris [" Oslo "; "5"] [VStr "Paris"] in
  sent (snd (add_favourite_flow w)) = [lookup_request (VStr "Oslo") "k3y"].
Proof. intros w. exact (add_flow_requests w eq_refl). Defined.

(** A pass of the loop ends the loop only on the Exit choice, right after
    the farewell. *)
Lemma menu_iteration_break (w w' : World) :
  menu_iteration w = (Ret false, w') ->
  exists w0, w' = printed [Text "Goodbye!"] w0.
Proof.
  unfold menu_iteration.
  cbv beta iota delta [bind print_menu print]. rewrite input_unfold.
  cbn [stdin printed].
  destruct (stdin w) as [|line rest]; [discriminate|].
  unfold dispatch.
  repeat match goal with
         | |- context [if (?a =? ?b)%string then _ else _] =>
             destruct (a =? b)%string
         end;
    cbv beta iota delta [bind print ret];
    try match goal with
        | |- context [match ?flow ?w0 with _ => _ end] =>
            destruct (flow w0) as [[[]|e] w1]
        end;
    intros H; try discriminate.
  injection H as <-. eauto.
Qed.

Lemma main_loop_return (fuel : nat) :
  forall w w', main_loop fuel w = Some (Ret tt, w') ->
               exists w0, w' = printed [Text "Goodbye!"] w0.
Proof.
  induction fuel as [|fuel IH]; intros w w' H; [discriminate|].
  cbn [main_loop] in H.
  destruct (menu_iteration w) as [[[]|e] w1] eqn:Hstep.
  - exact (IH _ _ H).
  - injection H as <-. exact (menu_iteration_break _ _ Hstep).
  - discriminate.
Qed.

(** X14: how a run ends.  The process always terminates; its status is 0
    only when the last thing printed is the farewell of the Exit choice, and
    1 only when a built-in exception (never a [WeatherError]) left [main]:
    the fatal-error handler of the entry point is never taken. *)
Theorem exit_status_characterised (w : World) :
  exists status w',
    script w = Some (status, w') /\
    ((status = 0 /\ exists w0, w' = printed [Text "Goodbye!"] w0) \/
     (status = 1 /\ exists b, main w = Some (Raise (Builtin b), w'))).
Proof.
  unfold script. destruct (main_terminates w) as (outcome & Hmain).
  rewrite Hmain. destruct outcome as [[[]|[b|e]] w'].
  - exists 0, w'. split; [reflexivity|]. left. split; [reflexivity|].
    revert Hmain. unfold main.
    cbv beta iota delta [bind set_favourites print]. apply main_loop_return.
  - exists 1, w'. split; [reflexivity|]. right. eauto.
  - exfalso. revert Hmain. unfold main.
    cbv beta iota delta [bind set_favourites print]. apply main_loop_quiet.
Qed.

(** X15: a menu choice, typed as ASCII text, other than 1 to 5 is reported
    and changes nothing: the pass reads that one line, sends no request,
    leaves the store alone and the loop goes round again. *)
Theorem unknown_choice_is_harmless
    (w : World) (line : string) (rest : list string) :
  stdin w = line :: rest ->
  is_ascii line = true ->
  ~ In (strip line) ["1"; "2"; "3"; "4"; "5"] ->
  exists w',
    menu_iteration w = (Ret true, w') /\
    stdin w' = rest /\ sent w' = sent w /\ favourites w' = favourites w /\
    stdout w' =
    (stdout w ++ menu_lines
     ++ [Prompt "Choose an option (1-5): "; Text "";
         Text ("Invalid choice. Please select 1-5." ++ nl)])%list.
Proof.
  intros Hin _ Hnot. unfold menu_iteration.
  cbv beta iota delta [bind print_menu print]. rewrite input_unfold.
  cbn [stdin printed]. rewrite Hin. unfold dispatch.
  repeat match goal with
         | |- context [if (?a =? ?b)%string then _ else _] =>
             let E := fresh "E" in
             destruct (a =? b)%string eqn:E;
             [apply String.eqb_eq in E; exfalso; apply Hnot; rewrite E;
              simpl; tauto|]
         end.
  cbv beta iota delta [bind print ret]. eexists. split; [reflexivity|].
  cbn [stdin sent favourites stdout printed after_input with_stdin].
  repeat (split; [reflexivity|]).
  rewrite <- !app_assoc. reflexivity.
Qed.

Lemma unknown_choice_is_harmless_witness :
  let w := world with_key no_network [" 9 "; "5"] [VStr "Paris"] in
  exists w',
    menu_iteration w = (Ret true, w') /\
    stdin w' = ["5"] /\ sent w' = sent w /\ favourites w' = favourites w /\
    stdout w' =
    (stdout w ++ menu_lines
     ++ [Prompt "Choose an option (1-5): "; Text "";
         Text ("Invalid choice. Please select 1-5." ++ nl)])%list.
Proof.
  intros w.
  refine (unknown_choice_is_harmless w " 9 " ["5"] eq_refl eq_refl _).
  simpl. intros [H|[H|[H|[H|[H|[]]]]]]; discriminate.
Defined.

(** ** The search flow *)

(** X16: what the search flow makes of the lookup of a name typed as ASCII
    text.  A [WeatherError] is printed after the prompt and the flow
    returns; a record that renders is printed and the flow returns; a
    built-in exception of the lookup leaves the flow as it is. *)
Theorem search_flow_outcome
    (w : World) (line : string) (rest : list string) :
  stdin w = line :: rest ->
  is_ascii line = true ->
  strip line <> "" ->
  let w1 := after_input city_prompt rest w in
  search_city_flow w =
  match get_weather (VStr (strip line)) w1 with
  | (Ret info, w2) => print_weather info w2
  | (Raise (WeatherError e), w2) => (Ret tt, printed [ErrorLine e] w2)
  | (Raise (Builtin b), w2) => (Raise (Builtin b), w2)
  end /\
  (forall e, fst (get_weather (VStr (strip line)) w) = Raise (WeatherError e) ->
             fst (search_city_flow w) = Ret tt /\
             stdout (snd (search_city_flow w)) =
             (stdout w ++ [Prompt city_prompt; ErrorLine e])%list) /\
  (forall info, fst (get_weather (VStr (strip line)) w) = Ret info ->
                renders info = true ->
                fst (search_city_flow w) = Ret tt /\
                stdout (snd (search_city_flow w)) =
                (stdout w ++ Prompt city_prompt :: weather_block info)%list).
Proof.
  intros Hin _ Hne w1.
  assert (Hflow :
            search_city_flow w =
            match get_weather (VStr (strip line)) w1 with
            | (Ret info, w2) => print_weather info w2
            | (Raise (WeatherError e), w2) => (Ret tt, printed [ErrorLine e] w2)
            | (Raise (Builtin b), w2) => (Raise (Builtin b), w2)
            end).
  { unfold search_city_flow. unfold bind at 1.
    rewrite prompt_city_name_unfold, Hin.
    apply String.eqb_neq in Hne. rewrite Hne.
    unfold bind at 1. rewrite lookup_or_print_unfold. fold w1.
    destruct (get_weather (VStr (strip line)) w1) as [[info|[e|e]] w2];
      reflexivity. }
  pose proof (get_weather_frame (VStr (strip line)) w1) as Hf.
  pose proof (get_weather_fst_frame (VStr (strip line)) w w1
                eq_refl eq_refl eq_refl) as Hfst.
  cbv zeta in Hf. destruct Hf as (_ & _ & _ & Hout & _).
  split; [exact Hflow|]. rewrite Hflow.
  destruct (get_weather (VStr (strip line)) w1) as [[info|[e|e]] w2];
    cbn [fst snd] in *; rewrite <- Hfst; split;
    try (intros ? ?; discriminate);
    try (intros ? ? ?; discriminate).
  - intros info' H Hr. injection H as <-.
    rewrite (print_weather_renders info w2 Hr). cbn [fst snd stdout printed].
    rewrite Hout. unfold w1. cbn [stdout after_input with_stdin printed].
    rewrite <- app_assoc. split; reflexivity.
  - intros e' H. injection H as <-. cbn [fst snd stdout printed].
    rewrite Hout. unfold w1. cbn [stdout after_input with_stdin printed].
    rewrite <- app_assoc. split; reflexivity.
Qed.

Lemma search_flow_outcome_witness :
  let w := world with_key only_paris ["Nowhere123"] [VStr "Paris"] in
  fst (search_city_flow w) = Ret tt /\
  stdout (snd (search_city_flow w)) =
  [Prompt city_prompt; ErrorLine (CityNotFound (VStr "Nowhere123"))].
Proof.
  intros w.
  refine (proj1 (proj2 (search_flow_outcome w "Nowhere123" [] eq_refl
                          eq_refl _))
                (CityNotFound (VStr "Nowhere123")) eq_refl).
  discriminate.
Defined.

(** ** How much input a flow takes *)

Lemma same_input_refl (w : World) : same_input w w.
Proof. reflexivity. Qed.

Lemma same_input_trans (a b c : World) :
  same_input a b -> same_input b c -> same_input a c.
Proof. unfold same_input. congruence. Qed.

Lemma same_input_print (o : output) : preserves same_input (print o).
Proof. intros w. reflexivity. Qed.

Lemma same_input_get_favourites : preserves same_input get_favourites.
Proof. intros w. reflexivity. Qed.

Lemma same_input_set_favourites (l : list pyval) :
  preserves same_input (set_favourites l).
Proof. intros w. reflexivity. Qed.

Lemma same_input_get_weather (city : pyval) :
  preserves same_input (get_weather city).
Proof.
  intros w. unfold same_input.
  destruct (get_weather_frame city w) as (_ & _ & -> & _). reflexivity.
Qed.

#[local] Hint Resolve same_input_print same_input_get_favourites
  same_input_set_favourites same_input_get_weather : frames.

(** The part of the search flow, of the add flow and of the replacement
    step that comes after the prompt. *)
Lemma same_input_after_prompt (city : string) :
  preserves same_input
    (r <- lookup_or (VStr city) (fun e => print (ErrorLine e)) ;;
     match r with
     | None => ret tt
     | Some info => print_weather info
     end) /\
  preserves same_input
    (r <- lookup_or (VStr city) (fun e => print (ErrorLine e)) ;;
     match r with
     | None => ret tt
     | Some info =>
         favourites_append (info_city info) ;;; print (Added (info_city info))
     end).
Proof.
  split; unfold lookup_or, print_weather, favourites_append;
    walk same_input_refl same_input_trans.
Qed.

Lemma reads_none (k : nat) (w w' : World) :
  stdin w' = stdin w -> reads_at_most k w w'.
Proof. intros H. exists 0%nat. split; [lia | exact H]. Qed.

Lemma reads_next (k : nat) (w w1 w' : World) (line : string)
    (rest : list string) :
  stdin w = line :: rest -> stdin w1 = rest ->
  reads_at_most k w1 w' -> reads_at_most (S k) w w'.
Proof.
  intros Hin H1 (j & Hj & H). exists (S j). split; [lia|].
  rewrite Hin. cbn [skipn]. rewrite <- H1. exact H.
Qed.

Lemma update_replacement_reads (w : World) :
  reads_at_most 1 w (snd (update_replacement w)).
Proof.
  unfold update_replacement. unfold bind at 1.
  rewrite prompt_city_name_unfold.
  destruct (stdin w) as [|line rest] eqn:Hin;
    [apply reads_none; reflexivity|].
  apply (reads_next 0 w (after_input city_prompt rest w) _ line rest Hin
           eq_refl).
  apply reads_none.
  destruct (strip line =? "")%string; [reflexivity|].
  unfold bind at 1, get_favourites at 1.
  destruct (str_in (strip line) _); [reflexivity|].
  exact (proj2 (same_input_after_prompt (strip line)) _).
Qed.

(** X17: a flow takes from the input only the lines it prompts for, from
    the front, and leaves the rest for the menu: the search flow and the add
    flow at most one line, the update flow at most two, however they end. *)
Theorem flows_read_bounded_input (w : World) :
  reads_at_most 1 w (snd (search_city_flow w)) /\
  reads_at_most 1 w (snd (add_favourite_flow w)) /\
  reads_at_most 2 w (snd (update_favourites_flow w)).
Proof.
  split; [|split].
  - unfold search_city_flow. unfold bind at 1.
    rewrite prompt_city_name_unfold.
    destruct (stdin w) as [|line rest] eqn:Hin;
      [apply reads_none; reflexivity|].
    apply (reads_next 0 w (after_input city_prompt rest w) _ line rest Hin
             eq_refl).
    apply reads_none.
    destruct (strip line =? "")%string; [reflexivity|].
    exact (proj1 (same_input_after_prompt (strip line)) _).
  - unfold add_favourite_flow. unfold bind at 1, get_favourites at 1.
    destruct (3 <=? len (favourites w));
      [apply reads_none; reflexivity|].
    unfold bind at 1. rewrite prompt_city_name_unfold.
    destruct (stdin w) as [|line rest] eqn:Hin;
      [apply reads_none; reflexivity|].
    apply (reads_next 0 w (after_input city_prompt rest w) _ line rest Hin
             eq_refl).
    apply reads_none.
    destruct (strip line =? "")%string; [reflexivity|].
    unfold bind at 1, get_favourites at 1.
    destruct (str_in (strip line) _); [reflexivity|].
    exact (proj2 (same_input_after_prompt (strip line)) _).
  - destruct (favourites w) as [|f fs] eqn:Hf.
    { apply reads_none. unfold update_favourites_flow.
      unfold bind at 1, get_favourites at 1. rewrite Hf. reflexivity. }
    assert (Hne : favourites w <> []) by (rewrite Hf; discriminate).
    destruct (stdin w) as [|line rest] eqn:Hin.
    { apply reads_none. rewrite (update_favourites_flow_eof w Hne Hin).
      reflexivity. }
    rewrite (update_favourites_flow_unfold w line rest Hne Hin).
    set (w1 := after_input removal_prompt rest (listing_shown w)).
    assert (H1 : stdin w1 = rest) by reflexivity.
    destruct (int (strip line)) as [choice|e];
      [|apply (reads_next 1 w w1 _ line rest Hin H1), reads_none;
        reflexivity].
    destruct (negb ((1 <=? choice) && (choice <=? len (favourites w))));
      [apply (reads_next 1 w w1 _ line rest Hin H1), reads_none;
       reflexivity|].
    destruct (seq_index (favourites w) (choice - 1)) as [x|];
      [|apply (reads_next 1 w w1 _ line rest Hin H1), reads_none;
        reflexivity].
    match goal with
    | |- reads_at_most 2 w (snd (update_replacement ?w2)) =>
        apply (reads_next 1 w w2 _ line rest Hin eq_refl)
    end.
    apply update_replacement_reads.
Qed.

(** ** The list flow without a key *)

Lemma list_loop_without_key (l : list pyval) :
  forall (idx : Z) (w : World),
    credential (environ w) = None ->
    list_loop idx l w =
    (Ret tt, printed (flat_map missing_key_report (enumerate idx l)) w).
Proof.
  induction l as [|city rest IH]; intros idx w Hkey.
  - cbn [list_loop enumerate flat_map]. unfold ret. rewrite printed_nil.
    reflexivity.
  - cbn [list_loop]. unfold bind at 1, print at 1. unfold bind at 1.
    rewrite list_entry_unfold, get_weather_unfold.
    cbn [environ printed]. rewrite Hkey.
    rewrite IH by exact Hkey. rewrite !printed_printed. reflexivity.
Qed.

(** X18: with no key set, the list flow over a non-empty store still goes
    through every entry: after its two title lines it prints, for each
    entry in order, the header and the missing-key error, sends no request,
    reads nothing and returns with the store as it was. *)
Theorem list_flow_without_key (w : World) :
  credential (environ w) = None ->
  favourites w <> [] ->
  list_favourites_flow w =
  (Ret tt,
   printed
     ([Text (nl ++ "Favourite cities and their current weather:");
       Text "-------------------------------------------"]
      ++ flat_map missing_key_report (enumerate 1 (favourites w)))
     w).
Proof.
  intros Hkey Hne. unfold list_favourites_flow.
  unfold bind at 1, get_favourites at 1.
  destruct (favourites w) as [|f fs] eqn:Hf; [contradiction|].
  cbn [truthy negb]. unfold bind at 1, print at 1.
  unfold bind at 1, print at 1.
  rewrite list_loop_without_key by exact Hkey.
  rewrite !printed_printed. reflexivity.
Qed.

Lemma list_flow_without_key_witness :
  let w := world [("OPENWEATHER_API_KEY", "")] only_paris ["5"]
                 [VStr "Paris"; VStr "Oslo"] in
  list_favourites_flow w =
  (Ret tt,
   printed
     ([Text (nl ++ "Favourite cities and their current weather:");
       Text "-------------------------------------------"]
      ++ flat_map missing_key_report (enumerate 1 (favourites w)))
     w).
Proof.
  intros w. refine (list_flow_without_key w eq_refl _). discriminate.
Defined.
